(** * User management service: authentication, RBAC and the user model

    A shallow embedding of [models/User.js], [routes/auth.js],
    [routes/users.js] and the dashboard route of [server.js].

    The MySQL table [users] is a finite map from the primary key to the
    row; every [pool.query] of the model is a function on that table.
    Route handlers run in a small state-and-exception monad: the state is
    the database together with the salt source of bcrypt, an exception is
    a JavaScript [throw].  What [bcryptjs], [validator.js], the column
    collation and [config/default.js] contribute is collected in the
    class [Platform] and stays abstract in every theorem.

    Scope.  Of a request body, [username], [email] and [role] are JSON
    strings or absent: what a number or an array does in their place is
    decided by the escaping of [mysql2] and the conversions of MySQL.  The
    [password], which only the validators and bcrypt read, is any JSON
    scalar.  Strings are UTF-8.  [req.params.id] is the number MySQL
    compares the key with.  A statement fails where a UNIQUE constraint
    is violated or a value is longer than its VARCHAR column, as under
    the strict SQL mode MySQL runs in by default; that the server cuts
    off spaces in excess at the end of a value instead of refusing it,
    and a lost connection, are not modelled.  Time is counted in seconds.
    Requests are served one at a time. *)

From Stdlib Require Import ZArith Ascii String List Bool.
From stdpp Require Import gmap strings list fin_maps sorting pretty.
Import ListNotations.

Set Warnings "-register-all".

Local Open Scope string_scope.
Local Open Scope Z_scope.

(** ** Collaborators outside the repository *)

Class Platform := {
  (** [bcrypt.hash(password, rounds)] with the salt it drew made explicit *)
  bcrypt_hash : string -> nat -> nat -> string;
  (** [bcrypt.compare(password, hash)] *)
  bcrypt_compare : string -> string -> bool;
  (** [=] on a VARCHAR column under the collation of the table *)
  collation_eq : string -> string -> bool;
  (** [validator.isEmail] *)
  isEmail : string -> bool;
  (** [config.jwtSecret] and [config.jwtExpiration] (seconds) *)
  jwtSecret : string;
  jwtExpiration : Z
}.

(** ** Roles: [const ROLES = { ADMIN: 'admin', USER: 'user' }] *)

Module ROLES.
Definition ADMIN : string := "admin".
Definition USER : string := "user".
(** [Object.values(ROLES)] *)
Definition values : list string := [ADMIN; USER].
End ROLES.

(** [Array.prototype.includes] on strings *)
Definition includes (l : list string) (s : string) : bool :=
  existsb (String.eqb s) l.

(** ** Text

    A string is a sequence of bytes that encodes text in UTF-8; a
    character starts at every byte that is not a continuation byte
    [10xxxxxx]. *)

Definition continuation (c : Ascii.ascii) : bool :=
  match c with
  | Ascii.Ascii _ _ _ _ _ _ false true => true
  | _ => false
  end.

(** The number of characters (code points) of a text *)
Fixpoint characters (s : string) : nat :=
  match s with
  | EmptyString => 0
  | String c rest =>
      ((if continuation c then 0 else 1) + characters rest)%nat
  end.

(** ** The [users] table

    [id INT AUTO_INCREMENT PRIMARY KEY, username VARCHAR(50) UNIQUE,
     email VARCHAR(100) UNIQUE, password VARCHAR(255),
     role ENUM('admin','user'), created_at, updated_at].
    The table is a finite map from [id] to the other columns. *)

Record row := Row {
  row_username : string;
  row_email : string;
  row_password : string;
  row_role : string;
  row_created_at : Z;
  row_updated_at : Z
}.

(** The database and the ambient randomness.  [salts_drawn] counts the
    calls of [bcrypt.hash] so far; each call draws the next salt. *)
Record world := World {
  users : gmap Z row;
  auto_increment : Z;
  salts_drawn : nat
}.

Definition set_users (f : gmap Z row -> gmap Z row) (w : world) : world :=
  {| users := f (users w);
     auto_increment := auto_increment w;
     salts_drawn := salts_drawn w |}.

(** ** State and exceptions *)

Inductive outcome (A : Type) : Type :=
| Return (a : A)
| Throw (message : string).
Arguments Return {A} a.
Arguments Throw {A} message.

Definition M (A : Type) : Type := world -> outcome A * world.

Definition ret {A} (a : A) : M A := fun w => (Return a, w).

Definition bind {A B} (m : M A) (k : A -> M B) : M B :=
  fun w =>
    match m w with
    | (Return a, w') => k a w'
    | (Throw e, w') => (Throw e, w')
    end.

Definition throw {A} (e : string) : M A := fun w => (Throw e, w).

(** [try { m } catch (error) { h(error.message) }]: what [m] wrote before
    it threw stays written. *)
Definition try_catch {A} (m : M A) (h : string -> M A) : M A :=
  fun w =>
    match m w with
    | (Return a, w') => (Return a, w')
    | (Throw e, w') => h e w'
    end.

Declare Scope js_scope.
Delimit Scope js_scope with js.
Notation "x <~ m ;; k" := (bind m (fun x => k))
  (at level 100, m at next level, right associativity) : js_scope.
Local Open Scope js_scope.

(** ** [pool.query]: the statements the model sends *)

(** A row of a result set; [password] is absent when the statement does
    not select the column. *)
Record rowdata := RowData {
  rd_id : Z;
  rd_username : string;
  rd_email : string;
  rd_password : option string;
  rd_role : string;
  rd_created_at : Z;
  rd_updated_at : Z
}.

Definition select_star (kr : Z * row) : rowdata :=
  {| rd_id := kr.1; rd_username := row_username kr.2;
     rd_email := row_email kr.2; rd_password := Some (row_password kr.2);
     rd_role := row_role kr.2; rd_created_at := row_created_at kr.2;
     rd_updated_at := row_updated_at kr.2 |}.

Definition select_public (kr : Z * row) : rowdata :=
  {| rd_id := kr.1; rd_username := row_username kr.2;
     rd_email := row_email kr.2; rd_password := None;
     rd_role := row_role kr.2; rd_created_at := row_created_at kr.2;
     rd_updated_at := row_updated_at kr.2 |}.

(** The rows of the table, each with its primary key *)
Definition table_rows (t : gmap Z row) : list (Z * row) := map_to_list t.

(** [ORDER BY created_at DESC] *)
Definition newer_first (a b : Z * row) : Prop :=
  row_created_at b.2 <= row_created_at a.2.

#[global] Instance newer_first_dec a b : Decision (newer_first a b).
Proof. unfold newer_first. apply _. Defined.

(** [VARCHAR(n)] takes a value of [n] characters at most. *)
Definition fits (n : nat) (value : string) : bool :=
  (characters value <=? n)%nat.

Module pool.
Section Statements.
Context `{Platform}.

(** [SELECT id, username, email, role, created_at, updated_at
     FROM users ORDER BY created_at DESC] *)
Definition select_all_public : M (list rowdata) :=
  fun w => (Return (map select_public
                      (merge_sort newer_first (table_rows (users w)))), w).

(** [SELECT * FROM users WHERE id = ?] *)
Definition select_by_id (userId : Z) : M (list rowdata) :=
  fun w => (Return (match users w !! userId with
                    | Some r => [select_star (userId, r)]
                    | None => []
                    end), w).

(** [SELECT * FROM users WHERE username = ?] *)
Definition select_by_username (username : string) : M (list rowdata) :=
  fun w => (Return (map select_star
                      (List.filter
                         (fun kr => collation_eq (row_username kr.2) username)
                         (table_rows (users w)))), w).

(** [SELECT * FROM users WHERE email = ?] *)
Definition select_by_email (email : string) : M (list rowdata) :=
  fun w => (Return (map select_star
                      (List.filter
                         (fun kr => collation_eq (row_email kr.2) email)
                         (table_rows (users w)))), w).

(** Would a row carrying this username and email break one of the two
    UNIQUE constraints, the row [except] left aside? *)
Definition violates_unique (t : gmap Z row) (except : option Z)
           (username email : string) : bool :=
  existsb (fun kr =>
             negb (bool_decide (Some kr.1 = except))
             && (collation_eq (row_username kr.2) username
                 || collation_eq (row_email kr.2) email))
          (table_rows t).

(** [INSERT INTO users (username, email, password, role)
     VALUES (?, ?, ?, ?)]; answers [result.insertId].  A value that does
    not fit its column is refused before the row reaches the storage
    engine; InnoDB then hands out the AUTO_INCREMENT value before it
    checks the constraints.  The [password] column, [VARCHAR(255)],
    receives a bcrypt hash, which has 60 characters. *)
Definition insert (now : Z) (username email password role : string)
  : M Z :=
  fun w =>
    if negb (fits 50 username && fits 100 email)
    then (Throw "ER_DATA_TOO_LONG", w)
    else
      let insertId := auto_increment w in
      let w1 := {| users := users w;
                   auto_increment := insertId + 1;
                   salts_drawn := salts_drawn w |} in
      if violates_unique (users w) None username email
      then (Throw "ER_DUP_ENTRY", w1)
      else (Return insertId,
            set_users
              (fun t =>
                 <[insertId :=
                     {| row_username := username;
                        row_email := email; row_password := password;
                        row_role := role; row_created_at := now;
                        row_updated_at := now |}]> t) w1).

(** One [column = ?] of an UPDATE applied to a row.  Only the columns
    the model can name are written. *)
Definition assign (r : row) (column value : string) : row :=
  if String.eqb column "username" then
    {| row_username := value;
       row_email := row_email r; row_password := row_password r;
       row_role := row_role r; row_created_at := row_created_at r;
       row_updated_at := row_updated_at r |}
  else if String.eqb column "email" then
    {| row_username := row_username r;
       row_email := value; row_password := row_password r;
       row_role := row_role r; row_created_at := row_created_at r;
       row_updated_at := row_updated_at r |}
  else if String.eqb column "password" then
    {| row_username := row_username r;
       row_email := row_email r; row_password := value;
       row_role := row_role r; row_created_at := row_created_at r;
       row_updated_at := row_updated_at r |}
  else if String.eqb column "role" then
    {| row_username := row_username r;
       row_email := row_email r; row_password := row_password r;
       row_role := value; row_created_at := row_created_at r;
       row_updated_at := row_updated_at r |}
  else r.

Definition touch (now : Z) (r : row) : row :=
  {| row_username := row_username r;
     row_email := row_email r; row_password := row_password r;
     row_role := row_role r; row_created_at := row_created_at r;
     row_updated_at := now |}.

(** Does the value of a [column = ?] fit the column? *)
Definition column_fits (cv : string * string) : bool :=
  if String.eqb cv.1 "username" then fits 50 cv.2
  else if String.eqb cv.1 "email" then fits 100 cv.2
  else true.

(** [UPDATE users SET c1 = ?, ..., updated_at = CURRENT_TIMESTAMP
     WHERE id = ?]; a value that does not fit its column is refused
    before a constraint is looked at. *)
Definition update (now : Z) (assignments : list (string * string))
           (userId : Z) : M unit :=
  fun w =>
    match users w !! userId with
    | None => (Return tt, w)
    | Some r =>
        if negb (forallb column_fits assignments)
        then (Throw "ER_DATA_TOO_LONG", w)
        else
          let r' := touch now
                      (fold_left (fun acc cv => assign acc cv.1 cv.2)
                                 assignments r) in
          if violates_unique (users w) (Some userId)
                             (row_username r') (row_email r')
          then (Throw "ER_DUP_ENTRY", w)
          else (Return tt, set_users (fun t => <[userId := r']> t) w)
    end.

(** [DELETE FROM users WHERE id = ?]; answers [result.affectedRows] *)
Definition delete (userId : Z) : M nat :=
  fun w =>
    match users w !! userId with
    | None => (Return 0%nat, w)
    | Some _ => (Return 1%nat, set_users (base.delete userId) w)
    end.
End Statements.
End pool.

(** ** Session tokens ([jsonwebtoken])

    A token is kept symbolic: the payload, the two timestamps and the key
    that produced the signature.  Verifying compares the key, then the
    expiry, which is all an HMAC signature lets an honest verifier see. *)

Record claims := Claims {
  claim_id : Z;
  claim_username : string;
  claim_role : string
}.

Record jwt := Jwt {
  jwt_payload : claims;
  jwt_iat : Z;
  jwt_exp : Z;
  jwt_key : string
}.

(** [jwt.sign({ user: payload }, secret, { expiresIn })] *)
Definition jwt_sign (now : Z) (payload : claims) (secret : string)
           (expiresIn : Z) : jwt :=
  {| jwt_payload := payload; jwt_iat := now;
     jwt_exp := now + expiresIn; jwt_key := secret |}.

(** ** Values handed to [res.json] *)

Inductive prim :=
| PNull
| PBool (b : bool)
| PNum (z : Z)
| PStr (s : string)
| PDate (t : Z)
| PToken (t : jwt)
(** a number a client sent, as JavaScript prints it *)
| PNumeral (printed : string).

(** ** Values received in [req.body]

    A JSON scalar as [express.json()] parsed it.  A number is given by
    the text [String(n)] prints: the validators read that text, and the
    number is zero when the text is [0]. *)

Inductive bodyval :=
| BStr (s : string)
| BNum (printed : string)
| BBool (b : bool)
| BNull.

(** [typeof v === 'string']; [None] is [undefined] *)
Definition is_string (v : option bodyval) : bool :=
  match v with
  | Some (BStr _) => true
  | _ => false
  end.

(** ** [class User] *)

Module User.

Record t := Build {
  id : Z;
  username : string;
  email : string;
  password : option string;
  role : string;
  created_at : Z;
  updated_at : Z
}.

(** [constructor(userData)]; [userData.role || ROLES.USER] *)
Definition constructor (userData : rowdata) : t :=
  {| id := rd_id userData;
     username := rd_username userData;
     email := rd_email userData;
     password := rd_password userData;
     role := if String.eqb (rd_role userData) ""
             then ROLES.USER else rd_role userData;
     created_at := rd_created_at userData;
     updated_at := rd_updated_at userData |}.

(** The own properties of an instance, in assignment order; [None] is
    [undefined]. *)
Definition own_properties (this : t) : list (string * option prim) :=
  [("id", Some (PNum (id this)));
   ("username", Some (PStr (username this)));
   ("email", Some (PStr (email this)));
   ("password", PStr <$> password this);
   ("role", Some (PStr (role this)));
   ("created_at", Some (PDate (created_at this)));
   ("updated_at", Some (PDate (updated_at this)))].

(** [const { password, ...safeUserData } = this; return safeUserData] *)
Definition toJSON (this : t) : list (string * option prim) :=
  List.filter (fun kv => negb (String.eqb kv.1 "password"))
              (own_properties this).

(** [rows.length > 0 ? new User(rows[0]) : null] *)
Definition first_or_null (rows : list rowdata) : option t :=
  match rows with
  | [] => None
  | r :: _ => Some (constructor r)
  end.

Section Methods.
Context `{Platform}.

(** [bcrypt.hash(password, saltRounds)]: draws a salt.  bcryptjs
    rejects a password that is not a string before it draws one. *)
Definition bcrypt_hash_call (password : option bodyval) (saltRounds : nat)
  : M string :=
  match password with
  | Some (BStr s) =>
      fun w => (Return (bcrypt_hash s saltRounds (salts_drawn w)),
                {| users := users w;
                   auto_increment := auto_increment w;
                   salts_drawn := S (salts_drawn w) |})
  | _ => throw "Illegal arguments"
  end.

Definition getAllUsers : M (list t) :=
  try_catch
    (rows <~ pool.select_all_public ;;
     ret (map constructor rows))
    (fun _ => throw "Database query failed: unable to retrieve users").

Definition findById (userId : Z) : M (option t) :=
  try_catch
    (rows <~ pool.select_by_id userId ;;
     ret (first_or_null rows))
    (fun _ => throw "Database query failed: unable to find user by ID").

Definition findByUsername (username : string) : M (option t) :=
  try_catch
    (rows <~ pool.select_by_username username ;;
     ret (first_or_null rows))
    (fun _ =>
       throw "Database query failed: unable to find user by username").

Definition findByEmail (email : string) : M (option t) :=
  try_catch
    (rows <~ pool.select_by_email email ;;
     ret (first_or_null rows))
    (fun _ => throw "Database query failed: unable to find user by email").

(** [createUser({ username, email, password, role = ROLES.USER })] *)
Definition createUser (now : Z) (username email : string)
           (password : option bodyval) (role : option string)
  : M (option t) :=
  let role := default ROLES.USER role in
  try_catch
    (let saltRounds := 12%nat in
     hashedPassword <~ bcrypt_hash_call password saltRounds ;;
     insertId <~ pool.insert now username email hashedPassword role ;;
     findById insertId)
    (fun _ => throw "Database operation failed: unable to create user").

(** The loop over [Object.entries(updates)]: one assignment for every
    allowed field whose value is not [undefined]. *)
Definition allowed_assignments (updates : list (string * option string))
  : list (string * string) :=
  let allowedFields := ["username"; "email"] in
  flat_map (fun fv =>
              match fv.2 with
              | Some value =>
                  if includes allowedFields fv.1
                  then [(fv.1, value)] else []
              | None => []
              end) updates.

Definition updateUser (now : Z) (userId : Z)
           (updates : list (string * option string)) : M (option t) :=
  try_catch
    (let updateParts := allowed_assignments updates in
     if (length updateParts =? 0)%nat
     then findById userId
     else
       _ <~ pool.update now updateParts userId ;;
       findById userId)
    (fun _ => throw "Database operation failed: unable to update user").

Definition updateUserRole (now : Z) (userId : Z) (newRole : string)
  : M (option t) :=
  try_catch
    (if negb (includes ROLES.values newRole)
     then throw "Invalid role provided"
     else
       _ <~ pool.update now [("role", newRole)] userId ;;
       findById userId)
    (fun _ =>
       throw "Database operation failed: unable to update user role").

(** [result.affectedRows > 0] *)
Definition deleteUser (userId : Z) : M bool :=
  try_catch
    (affectedRows <~ pool.delete userId ;;
     ret (0 <? affectedRows)%nat)
    (fun _ => throw "Database operation failed: unable to delete user").

(** [bcrypt.compare(providedPassword, this.password)]; bcryptjs rejects
    a password or a hash that is not a string. *)
Definition checkPassword (this : t) (providedPassword : option bodyval)
  : M bool :=
  try_catch
    (match providedPassword, password this with
     | Some (BStr s), Some hash => ret (bcrypt_compare s hash)
     | _, _ => throw "Illegal arguments"
     end)
    (fun _ => throw "Password validation failed").
End Methods.
End User.

(** ** JavaScript values, [JSON.stringify] and responses *)

Inductive jsval :=
| VUndefined
| VPrim (p : prim)
| VArr (items : list jsval)
| VObj (props : list (string * jsval))
| VInst (u : User.t).

Inductive json :=
| JPrim (p : prim)
| JArr (items : list json)
| JObj (props : list (string * json)).

Definition VStr (s : string) : jsval := VPrim (PStr s).
Definition VNum (z : Z) : jsval := VPrim (PNum z).

Definition of_option (o : option prim) : jsval :=
  match o with
  | Some p => VPrim p
  | None => VUndefined
  end.

(** A plain object literal built from a property list *)
Definition plain (props : list (string * option prim)) : jsval :=
  VObj (map (fun kv => (kv.1, of_option kv.2)) props).

(** [JSON.stringify]: a property whose value is [undefined] is left out,
    an [undefined] array element becomes [null], and an object that has a
    [toJSON] method is replaced by what the method returns. *)
Fixpoint stringify (v : jsval) : option json :=
  match v with
  | VUndefined => None
  | VPrim p => Some (JPrim p)
  | VArr items =>
      Some (JArr (map (fun x => default (JPrim PNull) (stringify x)) items))
  | VObj props =>
      Some (JObj ((fix members (ps : list (string * jsval)) :=
                     match ps with
                     | [] => []
                     | (k, x) :: rest =>
                         match stringify x with
                         | Some j => (k, j) :: members rest
                         | None => members rest
                         end
                     end) props))
  | VInst u =>
      Some (JObj (omap (fun kv => match kv.2 with
                                  | Some p => Some (kv.1, JPrim p)
                                  | None => None
                                  end) (User.toJSON u)))
  end.

Record response := Response {
  status : nat;
  body : option json
}.

(** [res.status(code).json(value)] *)
Definition res_json (code : nat) (value : jsval) : response :=
  {| status := code; body := stringify value |}.

Definition message_only (code : nat) (message : string) : response :=
  res_json code (VObj [("message", VStr message)]).

(** ** Requests *)

(** What the client put in the token header *)
Inductive raw_token :=
| Malformed (text : string)
| Compact (t : jwt).

(** [req.body]: the four fields the routes read; [None] is an absent
    field.  [username], [email] and [role] hold JSON strings, [password]
    any JSON scalar. *)
Record reqbody := ReqBody {
  body_username : option string;
  body_email : option string;
  body_password : option bodyval;
  body_role : option string
}.

Record request := Request {
  req_token : option raw_token;
  req_params_id : Z;
  req_body : reqbody;
  (** [req.user], set by [authenticateToken] *)
  req_user : option claims
}.

(** JavaScript truthiness: the empty string, zero, [false], [null] and
    [undefined] are falsy. *)
Definition truthy (v : option bodyval) : bool :=
  match v with
  | Some (BStr s) => negb (String.eqb s "")
  | Some (BNum printed) => negb (String.eqb printed "0")
  | Some (BBool b) => b
  | Some BNull | None => false
  end.

(** The string a route reads from a field of [req.body] that holds a
    string: a route reads a field only after a validator or a truthiness
    test that the empty string fails. *)
Definition text (v : option string) : string := default "" v.

(** ** [express-validator]

    [check(path)] looks for the field in the body and, beside it, in the
    cookies, the headers, the route parameters and the query string; a
    request of the model carries the fields of its body only. *)

(** What a validator is given to read: a string as it is, a number or a
    boolean as [String(value)] prints it, [null] and an absent field as
    the empty string. *)
Definition toString (v : option bodyval) : string :=
  match v with
  | Some (BStr s) => s
  | Some (BNum printed) => printed
  | Some (BBool b) => if b then "true" else "false"
  | Some BNull | None => ""
  end.

Definition to_prim (v : bodyval) : prim :=
  match v with
  | BStr s => PStr s
  | BNum printed => PNumeral printed
  | BBool b => PBool b
  | BNull => PNull
  end.

Record verror := VError {
  ve_value : option bodyval;
  ve_msg : string;
  ve_path : string
}.

Definition check (path msg : string) (valid : string -> bool)
           (v : option bodyval) : list verror :=
  if valid (toString v) then []
  else [{| ve_value := v; ve_msg := msg; ve_path := path |}].

(** [check(path).optional()...]: nothing is checked for an absent field *)
Definition check_optional (path msg : string) (valid : string -> bool)
           (v : option bodyval) : list verror :=
  match v with
  | None => []
  | Some _ => check path msg valid v
  end.

Definition notEmpty (s : string) : bool := negb (String.eqb s "").

(** Does the text start with one of the variation selectors U+FE0E and
    U+FE0F (bytes [EF B8 8E] and [EF B8 8F])? *)
Definition variation_selector (s : string) : bool :=
  match s with
  | String a (String b (String c _)) =>
      (Ascii.nat_of_ascii a =? 239)%nat && (Ascii.nat_of_ascii b =? 184)%nat
      && ((Ascii.nat_of_ascii c =? 142)%nat
          || (Ascii.nat_of_ascii c =? 143)%nat)
  | _ => false
  end.

(** The length [validator.isLength] measures: a surrogate pair counts
    once, so every code point does, and a variation selector not at
    all. *)
Fixpoint measured_length (s : string) : nat :=
  match s with
  | EmptyString => 0
  | String c rest =>
      ((if continuation c || variation_selector (String c rest)
        then 0 else 1) + measured_length rest)%nat
  end.

(** [isLength({ min: n })] *)
Definition isLength_min (n : nat) (s : string) : bool :=
  (n <=? measured_length s)%nat.

Definition isIn (l : list string) (s : string) : bool := includes l s.

(** [errors.array()] *)
Definition errors_array (errors : list verror) : jsval :=
  VArr (map (fun e =>
               VObj [("type", VStr "field");
                     ("value", of_option (to_prim <$> ve_value e));
                     ("msg", VStr (ve_msg e));
                     ("path", VStr (ve_path e));
                     ("location", VStr "body")]) errors).

(** [errors.isEmpty()] *)
Definition isEmpty (errors : list verror) : bool :=
  match errors with
  | [] => true
  | _ => false
  end.

(** ** [middleware/auth.js] *)

Inductive token_error :=
| TokenInvalid
| TokenExpired.

(** A middleware either answers the request or calls [next()] with the
    request it may have extended. *)
Definition middleware : Type := Z -> request -> response + request.

Section Middleware.
Context `{Platform}.

(** Modelled from the spec: [middleware/auth.js] is not among the
    sources; this is the Session Token Codec's [validate] of section
    4.2.  The signature is checked first, independent of expiry, then
    [now < expires_at]. *)
Definition validate (now : Z) (raw : raw_token) : token_error + claims :=
  match raw with
  | Malformed _ => inl TokenInvalid
  | Compact t =>
      if negb (String.eqb (jwt_key t) jwtSecret) then inl TokenInvalid
      else if now <? jwt_exp t then inr (jwt_payload t)
      else inl TokenExpired
  end.

(** Modelled from the spec: [authenticateToken] of the missing
    [middleware/auth.js], section 4.4: delegates to the codec and on
    any failure produces a uniform [Unauthorized] outcome (401); on
    success the claims become [req.user]. *)
Definition authenticateToken : middleware :=
  fun now req =>
    match req_token req with
    | None => inl (message_only 401 "Unauthorized")
    | Some raw =>
        match validate now raw with
        | inl _ => inl (message_only 401 "Unauthorized")
        | inr subject =>
            inr {| req_token := req_token req;
                   req_params_id := req_params_id req;
                   req_body := req_body req;
                   req_user := Some subject |}
        end
    end.

(** Modelled from the spec: the decision rule of the missing
    [authorize], section 4.4: a required role [user] is satisfied by any
    authenticated subject, a required role [admin] only by a subject
    whose role is [admin].  The enumeration is closed; nothing else is
    granted. *)
Definition authorized (subject : claims) (requiredRole : string) : bool :=
  if String.eqb requiredRole ROLES.USER then true
  else if String.eqb requiredRole ROLES.ADMIN
       then String.eqb (claim_role subject) ROLES.ADMIN
       else false.

(** Modelled from the spec: [authorize(requiredRole)] of the missing
    [middleware/auth.js]: denial produces [Forbidden] (403), distinct
    from [Unauthorized] (401), which is the answer when no subject was
    authenticated. *)
Definition authorize (requiredRole : string) : middleware :=
  fun _ req =>
    match req_user req with
    | None => inl (message_only 401 "Unauthorized")
    | Some subject =>
        if authorized subject requiredRole then inr req
        else inl (message_only 403 "Forbidden")
    end.

(** [router.METHOD(path, m1, ..., mk, handler)] *)
Fixpoint route (chain : list middleware)
         (handler : Z -> request -> M response)
         (now : Z) (req : request) : M response :=
  match chain with
  | [] => handler now req
  | m :: rest =>
      match m now req with
      | inl answer => ret answer
      | inr req' => route rest handler now req'
      end
  end.
End Middleware.

(** [{ id, username, email, role }] as the auth routes spell it out *)
Definition brief (u : User.t) : jsval :=
  VObj [("id", VNum (User.id u));
        ("username", VStr (User.username u));
        ("email", VStr (User.email u));
        ("role", VStr (User.role u))].

(** A [User | null] placed in a response *)
Definition instance_or_null (u : option User.t) : jsval :=
  match u with
  | Some u => VInst u
  | None => VPrim PNull
  end.

Definition is_null {A} (o : option A) : bool :=
  match o with
  | Some _ => false
  | None => true
  end.

(** Reading a property of [null] or [undefined] *)
Definition TypeError : string := "TypeError: Cannot read properties of null".

(** ** [routes/auth.js] *)

Module AuthRoutes.
Section Routes.
Context `{Platform}.

Definition token_for (now : Z) (u : User.t) : jwt :=
  jwt_sign now
           {| claim_id := User.id u;
              claim_username := User.username u;
              claim_role := User.role u |}
           jwtSecret jwtExpiration.

Definition register_checks (b : reqbody) : list verror :=
  check "username" "Username is required" notEmpty
        (BStr <$> body_username b)
  ++ check "email" "Please provide a valid email" isEmail
           (BStr <$> body_email b)
  ++ check "password" "Password must be at least 6 characters"
           (isLength_min 6) (body_password b).

(** [POST /api/auth/register] *)
Definition post_register (now : Z) (req : request) : M response :=
  let errors := register_checks (req_body req) in
  if negb (isEmpty errors) then
    ret (res_json 400 (VObj [("message", VStr "Please check your input");
                             ("errors", errors_array errors)]))
  else
    let username := text (body_username (req_body req)) in
    let email := text (body_email (req_body req)) in
    let password := body_password (req_body req) in
    try_catch
      (existingUserByUsername <~ User.findByUsername username ;;
       if negb (is_null existingUserByUsername) then
         ret (message_only 400 "Username already taken")
       else
         existingUserByEmail <~ User.findByEmail email ;;
         if negb (is_null existingUserByEmail) then
           ret (message_only 400 "Email already registered")
         else
           newUser <~ User.createUser now username email password
                                      (Some ROLES.USER) ;;
           match newUser with
           | None => throw TypeError
           | Some newUser =>
               let token := token_for now newUser in
               ret (res_json 201
                      (VObj [("message", VStr "Registration successful");
                             ("token", VPrim (PToken token));
                             ("user", brief newUser)]))
           end)
      (fun _ =>
         ret (message_only 500 "Registration failed, please try again")).

Definition login_checks (b : reqbody) : list verror :=
  check "username" "Username is required" notEmpty
        (BStr <$> body_username b)
  ++ check "password" "Password is required" notEmpty (body_password b).

(** [POST /api/auth/login] *)
Definition post_login (now : Z) (req : request) : M response :=
  let errors := login_checks (req_body req) in
  if negb (isEmpty errors) then
    ret (res_json 400
           (VObj [("message", VStr "Please provide username and password");
                  ("errors", errors_array errors)]))
  else
    let username := text (body_username (req_body req)) in
    let password := body_password (req_body req) in
    try_catch
      (user <~ User.findByUsername username ;;
       match user with
       | None => ret (message_only 400 "Invalid username or password")
       | Some user =>
           isPasswordValid <~ User.checkPassword user password ;;
           if negb isPasswordValid then
             ret (message_only 400 "Invalid username or password")
           else
             let token := token_for now user in
             ret (res_json 200
                    (VObj [("message", VStr "Login successful");
                           ("token", VPrim (PToken token));
                           ("user", brief user)]))
       end)
      (fun _ => ret (message_only 500 "Login failed, please try again")).

Definition me_handler (now : Z) (req : request) : M response :=
  try_catch
    (match req_user req with
     | None => throw TypeError
     | Some subject =>
         let userId := claim_id subject in
         user <~ User.findById userId ;;
         match user with
         | None => ret (message_only 404 "User not found")
         | Some user =>
             ret (res_json 200
                    (VObj [("message",
                            VStr "Profile retrieved successfully");
                           ("user", plain (User.toJSON user))]))
         end
     end)
    (fun _ => ret (message_only 500 "Could not retrieve profile")).

(** [GET /api/auth/me] *)
Definition get_me : Z -> request -> M response :=
  route [authenticateToken] me_handler.
End Routes.
End AuthRoutes.

(** ** [routes/users.js] *)

Module UsersRoutes.
Section Routes.
Context `{Platform}.

Definition protected : list middleware :=
  [authenticateToken; authorize ROLES.ADMIN].

Definition list_handler (now : Z) (req : request) : M response :=
  try_catch
    (users <~ User.getAllUsers ;;
     ret (res_json 200 (VArr (map VInst users))))
    (fun _ => ret (message_only 500 "Could not retrieve users")).

(** [GET /api/users] *)
Definition get_all : Z -> request -> M response :=
  route protected list_handler.

Definition get_handler (now : Z) (req : request) : M response :=
  try_catch
    (let userId := req_params_id req in
     user <~ User.findById userId ;;
     match user with
     | None => ret (message_only 404 "User not found")
     | Some user => ret (res_json 200 (VInst user))
     end)
    (fun _ => ret (message_only 500 "Could not retrieve user")).

(** [GET /api/users/:id] *)
Definition get_by_id : Z -> request -> M response :=
  route protected get_handler.

Definition create_checks (b : reqbody) : list verror :=
  check "username" "Username is required" notEmpty
        (BStr <$> body_username b)
  ++ check "email" "Please provide a valid email" isEmail
           (BStr <$> body_email b)
  ++ check "password" "Password must be at least 6 characters"
           (isLength_min 6) (body_password b)
  ++ check "role" "Role must be either admin or user"
           (isIn ["admin"; "user"]) (BStr <$> body_role b).

Definition create_handler (now : Z) (req : request) : M response :=
  let errors := create_checks (req_body req) in
  if negb (isEmpty errors) then
    ret (res_json 400 (VObj [("message", VStr "Invalid input data");
                             ("errors", errors_array errors)]))
  else
    let username := text (body_username (req_body req)) in
    let email := text (body_email (req_body req)) in
    let password := body_password (req_body req) in
    let role := body_role (req_body req) in
    try_catch
      (existingUserByUsername <~ User.findByUsername username ;;
       if negb (is_null existingUserByUsername) then
         ret (message_only 400 "Username already taken")
       else
         existingUserByEmail <~ User.findByEmail email ;;
         if negb (is_null existingUserByEmail) then
           ret (message_only 400 "Email already registered")
         else
           newUser <~ User.createUser now username email password role ;;
           ret (res_json 201
                  (VObj [("message", VStr "User created successfully");
                         ("user", instance_or_null newUser)])))
      (fun _ => ret (message_only 500 "Could not create user")).

(** [POST /api/users] *)
Definition post : Z -> request -> M response :=
  route protected create_handler.

Definition update_checks (b : reqbody) : list verror :=
  check_optional "username" "Username cannot be empty" notEmpty
                 (BStr <$> body_username b)
  ++ check_optional "email" "Please provide a valid email" isEmail
                    (BStr <$> body_email b)
  ++ check_optional "password" "Password must be at least 6 characters"
                    (isLength_min 6) (body_password b)
  ++ check_optional "role" "Role must be either admin or user"
                    (isIn ["admin"; "user"]) (BStr <$> body_role b).

(** [if (req.body.f) updates.f = req.body.f] *)
Definition set_if_truthy (field : string) (v : option string)
  : list (string * option string) :=
  if truthy (BStr <$> v) then [(field, v)] else [].

Definition update_handler (now : Z) (req : request) : M response :=
  let errors := update_checks (req_body req) in
  if negb (isEmpty errors) then
    ret (res_json 400 (VObj [("message", VStr "Invalid input data");
                             ("errors", errors_array errors)]))
  else
    try_catch
      (let userId := req_params_id req in
       existingUser <~ User.findById userId ;;
       match existingUser, req_user req with
       | None, _ => ret (message_only 404 "User not found")
       | Some _, None => throw TypeError
       | Some existingUser, Some subject =>
           if (User.id existingUser =? claim_id subject)
              && truthy (BStr <$> body_role (req_body req))
              && negb (String.eqb (text (body_role (req_body req)))
                                  ROLES.ADMIN)
           then
             ret (message_only 400
                    "You cannot remove your own admin privileges")
           else
             let updates :=
               (set_if_truthy "username" (body_username (req_body req))
                ++ set_if_truthy "email" (body_email (req_body req)))%list
             in
             updates <~
               (if truthy (body_password (req_body req)) then
                  hashedPassword <~
                    User.bcrypt_hash_call
                      (body_password (req_body req)) 10 ;;
                  ret (updates ++ [("password", Some hashedPassword)])%list
                else ret updates) ;;
             updatedUser <~ User.updateUser now userId updates ;;
             updatedUser <~
               (if truthy (BStr <$> body_role (req_body req)) then
                  User.updateUserRole now userId
                                      (text (body_role (req_body req)))
                else ret updatedUser) ;;
             ret (res_json 200
                    (VObj [("message", VStr "User updated successfully");
                           ("user", instance_or_null updatedUser)]))
       end)
      (fun _ => ret (message_only 500 "Could not update user")).

(** [PUT /api/users/:id] *)
Definition put_by_id : Z -> request -> M response :=
  route protected update_handler.

Definition delete_handler (now : Z) (req : request) : M response :=
  try_catch
    (let userId := req_params_id req in
     user <~ User.findById userId ;;
     match user, req_user req with
     | None, _ => ret (message_only 404 "User not found")
     | Some _, None => throw TypeError
     | Some user, Some subject =>
         if User.id user =? claim_id subject then
           ret (message_only 400 "You cannot delete your own account")
         else
           deleted <~ User.deleteUser userId ;;
           if negb deleted then
             ret (message_only 500 "Failed to delete user")
           else
             ret (message_only 200
                    ("User '" +:+ User.username user
                     +:+ "' deleted successfully"))
     end)
    (fun _ => ret (message_only 500 "Could not delete user")).

(** [DELETE /api/users/:id] *)
Definition delete_by_id : Z -> request -> M response :=
  route protected delete_handler.
End Routes.
End UsersRoutes.

(** ** [server.js]: the dashboard *)

Module Server.
Section Routes.
Context `{Platform}.

Definition activity (action description : string) (at_time : Z)
  : jsval :=
  VObj [("action", VStr action);
        ("timestamp", VPrim (PDate at_time));
        ("description", VStr description)].

(** [GET /api/dashboard]: no middleware stands before the handler.
    [draw1] and [draw2] are what the two calls of [Math.random] give,
    scaled as [Math.floor(Math.random() * n)]; time is in seconds. *)
Definition get_dashboard (draw1 draw2 : nat) (now : Z) (req : request)
  : M response :=
  try_catch
    (users <~ User.getAllUsers ;;
     ret (res_json 200
            (VObj [("stats",
                    VObj [("totalUsers",
                           VNum (Z.of_nat (length users)));
                          ("activeUsers",
                           VNum (Z.of_nat (draw1 mod 50 + 10)));
                          ("newUsersToday",
                           VNum (Z.of_nat (draw2 mod 10)))]);
                   ("recentActivity",
                    VArr [activity "User login"
                                   "User authentication event"
                                   (now - 120);
                          activity "Profile updated"
                                   "User profile modification"
                                   (now - 3600);
                          activity "New user registered"
                                   "New user account created"
                                   (now - 86400)])])))
    (fun _ =>
       ret (res_json 500
              (VObj [("error", VStr "Internal server error");
                     ("message",
                      VStr "Unable to retrieve dashboard statistics")]))).
End Routes.
End Server.

(** ** A test double for the platform and a seeded database *)

Module Demo.

(** Stands in for bcrypt: one salt character, a separator, the password *)
Definition fake_hash (password : string) (rounds salt : nat) : string :=
  String (Ascii.ascii_of_nat (48 + salt mod 10)) ("$" +:+ password).

Definition fake_compare (password hash : string) : bool :=
  match hash with
  | String _ (String "$"%char rest) => String.eqb rest password
  | _ => false
  end.

Definition lower (c : Ascii.ascii) : Ascii.ascii :=
  let n := Ascii.nat_of_ascii c in
  if ((65 <=? n) && (n <=? 90))%nat then Ascii.ascii_of_nat (n + 32) else c.

Fixpoint fold_case (s : string) : string :=
  match s with
  | EmptyString => EmptyString
  | String c rest => String (lower c) (fold_case rest)
  end.

(** Case-insensitive comparison, as a [_ci] collation does on ASCII *)
Definition ci_eq (a b : string) : bool :=
  String.eqb (fold_case a) (fold_case b).

Fixpoint has_at (s : string) : bool :=
  match s with
  | EmptyString => false
  | String c rest => Ascii.eqb c "@"%char || has_at rest
  end.

#[export] Instance platform : Platform :=
  {| bcrypt_hash := fake_hash;
     bcrypt_compare := fake_compare;
     collation_eq := ci_eq;
     isEmail := has_at;
     jwtSecret := "server-secret";
     jwtExpiration := 3600 |}.

(** The first two sample users of [createSampleUsers] *)
Definition admin_row : row :=
  {| row_username := "admin";
     row_email := "admin@example.com";
     row_password := fake_hash "admin123" 12 0;
     row_role := "admin"; row_created_at := 100; row_updated_at := 100 |}.

Definition john_row : row :=
  {| row_username := "john_doe";
     row_email := "john@example.com";
     row_password := fake_hash "password123" 12 1;
     row_role := "user"; row_created_at := 101; row_updated_at := 101 |}.

Definition seeded : world :=
  {| users := <[2 := john_row]> (<[1 := admin_row]> ∅);
     auto_increment := 3;
     salts_drawn := 2 |}.

Definition no_body : reqbody :=
  {| body_username := None; body_email := None;
     body_password := None; body_role := None |}.

Definition admin_token : jwt :=
  jwt_sign 200 {| claim_id := 1; claim_username := "admin";
                  claim_role := "admin" |} "server-secret" 3600.

Definition john_token : jwt :=
  jwt_sign 200 {| claim_id := 2; claim_username := "john_doe";
                  claim_role := "user" |} "server-secret" 3600.

Definition as_admin (target : Z) (b : reqbody) : request :=
  {| req_token := Some (Compact admin_token); req_params_id := target;
     req_body := b; req_user := None |}.

Definition as_john (target : Z) (b : reqbody) : request :=
  {| req_token := Some (Compact john_token); req_params_id := target;
     req_body := b; req_user := None |}.

Definition anonymous (b : reqbody) : request :=
  {| req_token := None; req_params_id := 0;
     req_body := b; req_user := None |}.
Definition credentials (username password : string) : reqbody :=
  {| body_username := Some username; body_email := None;
     body_password := Some (BStr password); body_role := None |}.

(** Credentials whose password is a JSON number *)
Definition numeric_credentials (username printed : string) : reqbody :=
  {| body_username := Some username; body_email := None;
     body_password := Some (BNum printed); body_role := None |}.

(** A registration that asks to become an admin *)
Definition alice : reqbody :=
  {| body_username := Some "alice"; body_email := Some "alice@x.com";
     body_password := Some (BStr "secret1"); body_role := Some "admin" |}.

(** A registration under the username of an existing account *)
Definition second_admin : reqbody :=
  {| body_username := Some "admin"; body_email := Some "other@x.com";
     body_password := Some (BStr "secret2"); body_role := None |}.

Definition new_password (password : string) : reqbody :=
  {| body_username := None; body_email := None;
     body_password := Some (BStr password); body_role := None |}.

Definition new_role (role : string) : reqbody :=
  {| body_username := None; body_email := None;
     body_password := None; body_role := Some role |}.

Definition draws : nat * nat := (7%nat, 3%nat).
End Demo.

(** ** The routing table of [server.js]

    [app.use("/api/auth", authRoutes)], [app.use("/api/users", userRoutes)]
    and [app.get("/api/dashboard", ...)]. *)

Inductive endpoint :=
| Register
| Login
| Whoami
| ListUsers
| GetUser
| CreateUser
| UpdateUser
| DeleteUser
| Dashboard.

Section App.
Context `{Platform}.

Definition serve (draws : nat * nat) (e : endpoint)
  : Z -> request -> M response :=
  match e with
  | Register => AuthRoutes.post_register
  | Login => AuthRoutes.post_login
  | Whoami => AuthRoutes.get_me
  | ListUsers => UsersRoutes.get_all
  | GetUser => UsersRoutes.get_by_id
  | CreateUser => UsersRoutes.post
  | UpdateUser => UsersRoutes.put_by_id
  | DeleteUser => UsersRoutes.delete_by_id
  | Dashboard => Server.get_dashboard draws.1 draws.2
  end.

(** The five operations of [routes/users.js] and the handler each one
    guards *)
Definition user_management (e : endpoint)
  : option (Z -> request -> M response) :=
  match e with
  | ListUsers => Some UsersRoutes.list_handler
  | GetUser => Some UsersRoutes.get_handler
  | CreateUser => Some UsersRoutes.create_handler
  | UpdateUser => Some UsersRoutes.update_handler
  | DeleteUser => Some UsersRoutes.delete_handler
  | _ => None
  end.
End App.

(** [req] after [authenticateToken] accepted its token *)
Definition authenticated (req : request) (subject : claims) : request :=
  {| req_token := req_token req;
     req_params_id := req_params_id req;
     req_body := req_body req;
     req_user := Some subject |}.

(** Does some object of a JSON text carry the key? *)
Fixpoint has_key (key : string) (j : json) : bool :=
  match j with
  | JPrim _ => false
  | JArr items => existsb (has_key key) items
  | JObj props =>
      existsb (fun kv => String.eqb kv.1 key || has_key key kv.2) props
  end.

(** No object literal below [v] names the key [password]; an instance of
    [User] is left to its [toJSON]. *)
Fixpoint safe (v : jsval) : bool :=
  match v with
  | VArr items => forallb safe items
  | VObj props =>
      forallb (fun kv => negb (String.eqb kv.1 "password") && safe kv.2) props
  | _ => true
  end.

(** The body of a response shows the credential field nowhere *)
Definition clean (a : response) : Prop :=
  forall j, body a = Some j -> has_key "password" j = false.

(** A route answers, whatever the database holds, and answers cleanly *)
Definition answers_cleanly (m : M response) : Prop :=
  forall w, exists a w', m w = (Return a, w') /\ clean a.

(** The instance [findById] builds from the row stored under [userId] *)
Definition loaded (userId : Z) (r : row) : User.t :=
  User.constructor (select_star (userId, r)).

(** The request with its token header removed *)
Definition without_token (req : request) : request :=
  {| req_token := None;
     req_params_id := req_params_id req;
     req_body := req_body req;
     req_user := req_user req |}.


Section Vocabulary.
Context `{Platform}.

(** The row a successful registration writes *)
Definition registered_row (now : Z) (req : request) (w : world) : row :=
  {| row_username := text (body_username (req_body req));
     row_email := text (body_email (req_body req));
     row_password := bcrypt_hash (toString (body_password (req_body req)))
                                 12 (salts_drawn w);
     row_role := ROLES.USER;
     row_created_at := now;
     row_updated_at := now |}.

End Vocabulary.

(** ** Integrity of the table *)

Definition valid_role (role : string) : Prop :=
  role = ROLES.ADMIN \/ role = ROLES.USER.


(** Every key in use lies below the next AUTO_INCREMENT value *)
Definition ids_below (w : world) : Prop :=
  forall k r, users w !! k = Some r -> k < auto_increment w.

Section Uniqueness.
Context `{Platform}.


(** The two UNIQUE constraints: no two rows agree on the username or on
    the email *)
Definition unique_keys (w : world) : Prop :=
  forall k1 k2 r1 r2,
    users w !! k1 = Some r1 -> users w !! k2 = Some r2 -> k1 <> k2 ->
    collation_eq (row_username r1) (row_username r2) = false
    /\ collation_eq (row_email r1) (row_email r2) = false.
End Uniqueness.

(** A computation keeps [P]: whatever it returns or throws, a world that
    satisfied [P] before satisfies it after *)
Definition preserves {A} (P : world -> Prop) (m : M A) : Prop :=
  forall w o w', P w -> m w = (o, w') -> P w'.

(** ** [config/db-init.js]: the sample accounts *)

Module DbInit.

Record sample := Sample {
  sample_username : string;
  sample_email : string;
  sample_password : string;
  sample_role : string
}.

Definition sampleUsers : list sample :=
  [{| sample_username := "admin"; sample_email := "admin@example.com";
      sample_password := "admin123"; sample_role := "admin" |};
   {| sample_username := "john_doe"; sample_email := "john@example.com";
      sample_password := "password123"; sample_role := "user" |};
   {| sample_username := "jane_smith"; sample_email := "jane@example.com";
      sample_password := "password123"; sample_role := "user" |}].

Section Seeding.
Context `{Platform}.

(** The statement that counts the rows of [users] *)
Definition select_count : M nat :=
  fun w => (Return (size (users w)), w).

(** [for (const user of sampleUsers) { hash; INSERT }]; [clock i] is the
    second in which the insert of the [i]-th account runs. *)
Fixpoint insert_samples (clock : nat -> Z) (i : nat) (l : list sample)
  : M unit :=
  match l with
  | [] => ret tt
  | user :: rest =>
      let saltRounds := 12%nat in
      hashedPassword <~
        User.bcrypt_hash_call (Some (BStr (sample_password user)))
                              saltRounds ;;
      _ <~ pool.insert (clock i) (sample_username user) (sample_email user)
                       hashedPassword (sample_role user) ;;
      insert_samples clock (S i) rest
  end.

(** [createSampleUsers()], on a database in which the table exists *)
Definition createSampleUsers (clock : nat -> Z) : M bool :=
  try_catch
    (count <~ select_count ;;
     if (0 <? count)%nat then ret true
     else
       _ <~ insert_samples clock 0 sampleUsers ;;
       ret true)
    (fun _ => ret false).
End Seeding.
End DbInit.

(** ** [public/script/script.js] and [public/script/admin.js] *)

Module Frontend.

(** [String.prototype.includes] *)
Fixpoint str_includes (s sub : string) : bool :=
  String.prefix sub s
  || match s with
     | EmptyString => false
     | String _ rest => str_includes rest sub
     end.

Definition getCurrentPage (path : string) : string :=
  if str_includes path "login.html" then "login"
  else if str_includes path "register.html" then "register"
  else if str_includes path "admin-dashboard.html" then "admin-dashboard"
  else if str_includes path "dashboard.html" then "user-dashboard"
  else if String.eqb path "/" || str_includes path "index.html" then "home"
  else "unknown".

(** What the scripts touch of the browser: the token in [localStorage],
    the page they navigate to, if any, and the alerts they show. *)
Record browser := Browser {
  stored_token : option raw_token;
  location_href : option string;
  alerts : list string
}.

Definition removeToken (b : browser) : browser :=
  {| stored_token := None;
     location_href := location_href b;
     alerts := alerts b |}.

Definition navigate (page : string) (b : browser) : browser :=
  {| stored_token := stored_token b;
     location_href := Some page;
     alerts := alerts b |}.

Definition showAlert (message : string) (b : browser) : browser :=
  {| stored_token := stored_token b;
     location_href := location_href b;
     alerts := (alerts b ++ [message])%list |}.

(** [localStorage.getItem('token')] as the scripts test it: the empty
    string is as good as no token. *)
Definition held_token (b : browser) : option raw_token :=
  match stored_token b with
  | Some (Malformed "") => None
  | held => held
  end.

(** [JSON.parse(atob(token.split('.')[1]))]: the payload is read without
    any check of the signature; what is not a token makes it throw. *)
Definition decode (token : raw_token) : option jwt :=
  match token with
  | Malformed _ => None
  | Compact t => Some t
  end.

(** [script.js]: [redirectToDashboard(role)] *)
Definition redirectToDashboard (role : string) (b : browser) : browser :=
  if String.eqb role "admin" then navigate "admin-dashboard.html" b
  else navigate "dashboard.html" b.

(** [script.js], the login and register pages: [redirectToLogin()] *)
Definition redirectToLogin (b : browser) : browser :=
  navigate "login.html" b.

(** [script.js]: [handleAuthenticationRouting(currentPage)];
    [nowMs] is [Date.now()], in milliseconds. *)
Definition handleAuthenticationRouting (nowMs : Z) (currentPage : string)
           (b : browser) : browser :=
  match held_token b with
  | Some token =>
      match decode token with
      | Some payload =>
          let user := jwt_payload payload in
          if negb (jwt_exp payload =? 0) && (jwt_exp payload * 1000 <=? nowMs)
          then redirectToLogin (removeToken b)
          else if negb (String.eqb (claim_role user) "") then
            if String.eqb currentPage "home"
               || String.eqb currentPage "login"
               || String.eqb currentPage "register"
            then redirectToDashboard (claim_role user) b
            else if String.eqb currentPage "admin-dashboard" then
              if negb (String.eqb (claim_role user) "admin") then
                redirectToDashboard
                  (claim_role user)
                  (showAlert "Access denied. Admin privileges required." b)
              else b
            else if String.eqb currentPage "user-dashboard" then b
            else redirectToDashboard (claim_role user) b
          else redirectToLogin (removeToken b)
      | None => redirectToLogin (removeToken b)
      end
  | None =>
      if String.eqb currentPage "admin-dashboard"
         || String.eqb currentPage "user-dashboard"
      then redirectToLogin b
      else b
  end.

(** The routing part of the [DOMContentLoaded] listener of [script.js] *)
Definition onPageLoad (nowMs : Z) (path : string) (b : browser) : browser :=
  handleAuthenticationRouting nowMs (getCurrentPage path) b.

(** [admin.js]: [redirectToLogin()] also forgets the token *)
Definition adminRedirectToLogin (b : browser) : browser :=
  navigate "login.html" (removeToken b).

(** [admin.js]: [checkAdminAuthentication()]; the result is the browser
    and [currentUser] *)
Definition checkAdminAuthentication (b : browser)
  : browser * option claims :=
  match held_token b with
  | None => (adminRedirectToLogin b, None)
  | Some token =>
      match decode token with
      | Some payload =>
          let currentUser := jwt_payload payload in
          if negb (String.eqb (claim_role currentUser) "admin") then
            (adminRedirectToLogin
               (showAlert "Access denied. Admin privileges required." b),
             Some currentUser)
          else (b, Some currentUser)
      | None => (adminRedirectToLogin b, None)
      end
  end.

(** [getTimeAgo(date)]: the unit and the number it prints *)
Inductive ago :=
| MinutesAgo (n : Z)
| HoursAgo (n : Z)
| DaysAgo (n : Z).

(** [now] and [date] in milliseconds; [Math.floor] of a quotient is
    [Z.div] *)
Definition elapsed (now date : Z) : ago :=
  let diffMs := now - date in
  let diffMins := diffMs / 60000 in
  let diffHours := diffMs / 3600000 in
  let diffDays := diffMs / 86400000 in
  if diffMins <? 60 then MinutesAgo diffMins
  else if diffHours <? 24 then HoursAgo diffHours
  else DaysAgo diffDays.

Definition render (a : ago) : string :=
  match a with
  | MinutesAgo n => pretty n +:+ " minutes ago"
  | HoursAgo n => pretty n +:+ " hours ago"
  | DaysAgo n => pretty n +:+ " days ago"
  end.

Definition getTimeAgo (now date : Z) : string := render (elapsed now date).
End Frontend.


(** ** More requests, worlds and browsers to try the service on *)

Module Fixtures.

Definition admin_subject : claims := jwt_payload Demo.admin_token.

(** A request of the seeded admin as a handler behind the middleware
    sees it *)
Definition by_admin (target : Z) (b : reqbody) : request :=
  authenticated (Demo.as_admin target b) admin_subject.


Definition rename (username : string) : reqbody :=
  {| body_username := Some username; body_email := None;
     body_password := None; body_role := None |}.

(** A registration whose password is the JSON number 123456 *)
Definition dave : reqbody :=
  {| body_username := Some "dave"; body_email := Some "dave@x.com";
     body_password := Some (BNum "123456"); body_role := None |}.

(** A registration under a username of sixty characters *)
Definition erin : reqbody :=
  {| body_username :=
       Some "erin_erin_erin_erin_erin_erin_erin_erin_erin_erin_erin_erin_";
     body_email := Some "erin@x.com";
     body_password := Some (BStr "secret4"); body_role := None |}.


Definition clock (i : nat) : Z := 1000 + Z.of_nat i.

Definition visitor (token : option raw_token) : Frontend.browser :=
  {| Frontend.stored_token := token;
     Frontend.location_href := None;
     Frontend.alerts := [] |}.
End Fixtures.

(** * Properties *)

Section Gate.
Context `{Platform}.

Lemma protected_route_spec handler now req w raw subject :
  req_token req = Some raw ->
  validate now raw = inr subject ->
  route UsersRoutes.protected handler now req w =
    if String.eqb (claim_role subject) ROLES.ADMIN
    then handler now (authenticated req subject) w
    else (Return (message_only 403 "Forbidden"), w).
Proof.
  intros Htok Hval.
  unfold UsersRoutes.protected. cbn [route].
  unfold authenticateToken, authenticated. rewrite Htok, Hval.
  unfold authorize, authorized. cbn [req_user].
  replace (String.eqb ROLES.ADMIN ROLES.USER) with false by reflexivity.
  replace (String.eqb ROLES.ADMIN ROLES.ADMIN) with true by reflexivity.
  destruct (String.eqb (claim_role subject) ROLES.ADMIN); reflexivity.
Qed.

Lemma protected_route_anonymous handler now req w :
  req_token req = None ->
  route UsersRoutes.protected handler now req w =
    (Return (message_only 401 "Unauthorized"), w).
Proof.
  intros Htok. unfold UsersRoutes.protected. cbn [route].
  unfold authenticateToken. rewrite Htok. reflexivity.
Qed.

Lemma user_management_serve draws e handler :
  user_management e = Some handler ->
  serve draws e = route UsersRoutes.protected handler.
Proof.
  destruct e; cbn; intros [= <-]; reflexivity.
Qed.

(** C1. Every user-management operation, called with a token that
    validates to a subject whose role is not [admin] (so in particular
    to role [user]), answers 403 Forbidden, a response that carries no
    user record and differs from the 401 of a missing token, and leaves
    the database as it was.  A validated [admin] token passes the gate:
    the handler behind it runs on the authenticated request. *)
Theorem C1_admin_gate draws e handler now req w raw subject :
  user_management e = Some handler ->
  req_token req = Some raw ->
  validate now raw = inr subject ->
  (claim_role subject <> ROLES.ADMIN ->
     serve draws e now req w = (Return (message_only 403 "Forbidden"), w)
     /\ body (message_only 403 "Forbidden")
        = Some (JObj [("message", JPrim (PStr "Forbidden"))])
     /\ message_only 403 "Forbidden" <> message_only 401 "Unauthorized")
  /\ (claim_role subject = ROLES.ADMIN ->
        serve draws e now req w = handler now (authenticated req subject) w).
Proof.
  intros He Htok Hval.
  rewrite (user_management_serve draws e handler He).
  rewrite (protected_route_spec handler now req w raw subject Htok Hval).
  split.
  - intros Hrole. apply String.eqb_neq in Hrole. rewrite Hrole.
    split; [reflexivity | split; [reflexivity | discriminate]].
  - intros Hrole. apply String.eqb_eq in Hrole. rewrite Hrole. reflexivity.
Qed.
End Gate.

(** ** What the model reads from the table *)

Section Reads.
Context `{Platform}.

Lemma table_rows_In k r (t : gmap Z row) :
  In (k, r) (table_rows t) <-> t !! k = Some r.
Proof.
  unfold table_rows. rewrite <- list_elem_of_In. apply elem_of_map_to_list.
Qed.

Lemma findById_spec userId w :
  User.findById userId w = (Return (loaded userId <$> users w !! userId), w).
Proof.
  unfold User.findById, try_catch, bind, pool.select_by_id, ret.
  destruct (users w !! userId); reflexivity.
Qed.

Lemma findByUsername_spec username w :
  User.findByUsername username w =
    (Return (User.first_or_null
               (map select_star
                    (List.filter
                       (fun kr => collation_eq (row_username kr.2) username)
                       (table_rows (users w))))), w).
Proof. reflexivity. Qed.

Lemma findByEmail_spec email w :
  User.findByEmail email w =
    (Return (User.first_or_null
               (map select_star
                    (List.filter
                       (fun kr => collation_eq (row_email kr.2) email)
                       (table_rows (users w))))), w).
Proof. reflexivity. Qed.

Lemma loaded_id userId r : User.id (loaded userId r) = userId.
Proof. reflexivity. Qed.
End Reads.

(** ** The two guards of the user-management routes *)

(** A validator reads a field that holds a string as the string it is. *)
Lemma toString_text (v : option string) : toString (BStr <$> v) = text v.
Proof. destruct v; reflexivity. Qed.

Section Guards.
Context `{Platform}.

Lemma check_optional_nil path msg valid (v : option string) s :
  check_optional path msg valid (BStr <$> v) = [] ->
  v = Some s -> valid s = true.
Proof.
  intros Hc ->. unfold check_optional, check in Hc. cbn in Hc.
  destruct (valid s); [reflexivity | discriminate].
Qed.

Lemma update_checks_role b role :
  UsersRoutes.update_checks b = [] ->
  body_role b = Some role ->
  role = ROLES.ADMIN \/ role = ROLES.USER.
Proof.
  unfold UsersRoutes.update_checks. intros Hc Hrole.
  apply app_eq_nil in Hc as [_ Hc].
  apply app_eq_nil in Hc as [_ Hc].
  apply app_eq_nil in Hc as [_ Hc].
  pose proof (check_optional_nil _ _ _ _ _ Hc Hrole) as Hin.
  unfold isIn, includes in Hin. cbn [existsb] in Hin.
  rewrite orb_false_r in Hin. apply orb_true_iff in Hin.
  destruct Hin as [Hin | Hin]; apply String.eqb_eq in Hin; auto.
Qed.

(** C4. An admin whose validated token names the id the request targets,
    whose record is in the table, and who supplies a role other than
    [admin], is turned away with status 400, and the database is exactly
    what it was: no statement that writes has run, so every field of the
    admin's row, the role included, is unchanged.  Whenever the body
    passes the validators of the route, the answer is the self-demotion
    error. *)
Theorem C4_no_self_demotion draws now req w raw subject r role :
  req_token req = Some raw ->
  validate now raw = inr subject ->
  claim_role subject = ROLES.ADMIN ->
  req_params_id req = claim_id subject ->
  users w !! claim_id subject = Some r ->
  body_role (req_body req) = Some role ->
  role <> ROLES.ADMIN ->
  exists answer,
    serve draws UpdateUser now req w = (Return answer, w)
    /\ status answer = 400%nat
    /\ users w !! claim_id subject = Some r
    /\ (UsersRoutes.update_checks (req_body req) = [] ->
        answer = message_only 400
                   "You cannot remove your own admin privileges").
Proof.
  intros Htok Hval Hadmin Hown Hrow Hrole Hne.
  cbn [serve]. unfold UsersRoutes.put_by_id.
  rewrite (protected_route_spec _ now req w raw subject Htok Hval).
  apply String.eqb_eq in Hadmin. rewrite Hadmin.
  unfold UsersRoutes.update_handler. cbn [req_body authenticated].
  destruct (UsersRoutes.update_checks (req_body req)) as [|e errors] eqn:Hc.
  - cbn [isEmpty negb].
    unfold try_catch, bind. cbn [req_params_id authenticated].
    rewrite findById_spec, Hown, Hrow.
    cbn [fmap option_fmap option_map req_user authenticated].
    rewrite loaded_id, Z.eqb_refl, Hrole.
    destruct (update_checks_role _ _ Hc Hrole) as [-> | ->];
      [congruence |].
    eexists. split; [reflexivity |]. repeat split; auto.
  - cbn [isEmpty negb]. eexists. split; [reflexivity |].
    repeat split; auto. discriminate.
Qed.

(** C5. An admin whose validated token names the id the request asks to
    delete, and whose record is in the table, is answered with the
    self-deletion error; the database is exactly what it was, so [DELETE]
    has not run and the admin's row is still there. *)
Theorem C5_no_self_deletion draws now req w raw subject r :
  req_token req = Some raw ->
  validate now raw = inr subject ->
  claim_role subject = ROLES.ADMIN ->
  req_params_id req = claim_id subject ->
  users w !! claim_id subject = Some r ->
  serve draws DeleteUser now req w =
    (Return (message_only 400 "You cannot delete your own account"), w)
  /\ users w !! claim_id subject = Some r.
Proof.
  intros Htok Hval Hadmin Hown Hrow.
  split; [| exact Hrow].
  cbn [serve]. unfold UsersRoutes.delete_by_id.
  rewrite (protected_route_spec _ now req w raw subject Htok Hval).
  apply String.eqb_eq in Hadmin. rewrite Hadmin.
  unfold UsersRoutes.delete_handler, try_catch, bind.
  cbn [req_params_id authenticated].
  rewrite findById_spec, Hown, Hrow.
  cbn [fmap option_fmap option_map req_user authenticated].
  rewrite loaded_id, Z.eqb_refl. reflexivity.
Qed.
End Guards.

(** ** The credential never leaves the service *)

Lemma toJSON_clean u :
  has_key "password"
    (JObj (omap (fun kv : string * option prim =>
                   match kv.2 with
                   | Some p => Some (kv.1, JPrim p)
                   | None => None
                   end) (User.toJSON u))) = false.
Proof. destruct u as [i n e [p|] r c d]; reflexivity. Qed.

Lemma safe_clean :
  forall v, safe v = true ->
  forall j, stringify v = Some j -> has_key "password" j = false.
Proof.
  fix IH 1. intros [ | p | items | props | u ] Hs j Hj; cbn in Hj.
  - discriminate.
  - injection Hj as <-. reflexivity.
  - injection Hj as <-. cbn in Hs |- *.
    induction items as [|x items IHi]; [reflexivity |].
    cbn in Hs |- *. apply andb_true_iff in Hs as [Hx Hs].
    rewrite (IHi Hs), orb_false_r.
    destruct (stringify x) as [jx|] eqn:Hjx; [| reflexivity].
    exact (IH x Hx jx Hjx).
  - injection Hj as <-. cbn in Hs.
    induction props as [|[k x] props IHp]; [reflexivity |].
    cbn in Hs. apply andb_true_iff in Hs as [Hx Hs].
    apply andb_true_iff in Hx as [Hk Hx]. cbn in Hk.
    destruct (stringify x) as [jx|] eqn:Hjx.
    + cbn. rewrite (IH x Hx jx Hjx).
      apply negb_true_iff in Hk. rewrite Hk. cbn. exact (IHp Hs).
    + exact (IHp Hs).
  - injection Hj as <-. apply toJSON_clean.
Qed.

Lemma res_json_clean code v : safe v = true -> clean (res_json code v).
Proof. intros Hs j Hj. exact (safe_clean v Hs j Hj). Qed.

Lemma safe_errors_array errors : safe (errors_array errors) = true.
Proof.
  unfold errors_array. cbn.
  induction errors as [|e errors IH]; [reflexivity |].
  cbn. rewrite IH. destruct (ve_value e); reflexivity.
Qed.

Lemma safe_instances us : safe (VArr (map VInst us)) = true.
Proof. cbn. induction us as [|u us IH]; [reflexivity |]. cbn. exact IH. Qed.

Lemma safe_instance_or_null u : safe (instance_or_null u) = true.
Proof. destruct u; reflexivity. Qed.

Lemma safe_plain_toJSON u : safe (plain (User.toJSON u)) = true.
Proof. destruct u as [i n e [p|] r c d]; reflexivity. Qed.

(** Unfold a route down to the statements it sends *)
Ltac open_model :=
  unfold AuthRoutes.post_register, AuthRoutes.post_login, AuthRoutes.get_me,
    AuthRoutes.me_handler,
    UsersRoutes.get_all, UsersRoutes.get_by_id, UsersRoutes.post,
    UsersRoutes.put_by_id, UsersRoutes.delete_by_id,
    UsersRoutes.list_handler, UsersRoutes.get_handler,
    UsersRoutes.create_handler, UsersRoutes.update_handler,
    UsersRoutes.delete_handler,
    Server.get_dashboard, UsersRoutes.protected;
  cbn [route];
  unfold authenticateToken, authorize,
    User.createUser, User.updateUser, User.updateUserRole, User.deleteUser,
    User.checkPassword, User.getAllUsers,
    User.findByUsername, User.findByEmail, User.findById,
    User.bcrypt_hash_call,
    pool.insert, pool.update, pool.delete, pool.select_all_public,
    pool.select_by_username, pool.select_by_email, pool.select_by_id,
    try_catch, bind, ret, throw, message_only.

(** Case analysis on the innermost scrutinee of the goal *)
Ltac branch :=
  match goal with
  | |- context [match ?x with _ => _ end] =>
      lazymatch x with
      | context [match _ with _ => _ end] => fail
      | _ => destruct x eqn:?
      end
  end.

Ltac clean_answer :=
  eexists _, _; split; [reflexivity |];
  apply res_json_clean; rewrite ?safe_instances;
  cbn [safe forallb fst snd negb andb String.eqb Ascii.eqb Bool.eqb
       brief VStr VNum];
  rewrite ?safe_errors_array, ?safe_instance_or_null, ?safe_plain_toJSON;
  reflexivity.

Section Credential.
Context `{Platform}.

Lemma serve_answers_cleanly draws e now req :
  answers_cleanly (serve draws e now req).
Proof.
  intros w. destruct e; cbn [serve]; open_model;
    repeat branch; simplify_eq; clean_answer.
Qed.

(** C6. Every endpoint of the service -- register, login, whoami, the
    five user-management operations, and the dashboard as well --
    answers every request in every state of the database, and no object
    anywhere in the JSON it sends has a [password] key: the user
    objects it returns never contain the credential. *)
Theorem C6_no_credential_in_responses draws e now req w :
  exists answer w',
    serve draws e now req w = (Return answer, w')
    /\ forall j, body answer = Some j -> has_key "password" j = false.
Proof. exact (serve_answers_cleanly draws e now req w). Qed.
End Credential.

(** ** Login and registration *)

Section Accounts.
Context `{Platform}.

Lemma no_match_filter (f : Z * row -> bool) (t : gmap Z row) :
  (forall k r, t !! k = Some r -> f (k, r) = false) ->
  List.filter f (table_rows t) = [].
Proof.
  intros Hnone.
  destruct (List.filter f (table_rows t)) as [|[k r] l] eqn:Hf;
    [reflexivity |].
  assert (Hin : In (k, r) ((k, r) :: l)) by (left; reflexivity).
  rewrite <- Hf in Hin. apply filter_In in Hin as [Hin Hm].
  apply table_rows_In in Hin. rewrite (Hnone k r Hin) in Hm. discriminate.
Qed.

Lemma some_match_filter (f : Z * row -> bool) (t : gmap Z row) k r :
  t !! k = Some r -> f (k, r) = true ->
  exists k' r' l,
    List.filter f (table_rows t) = (k', r') :: l
    /\ t !! k' = Some r' /\ f (k', r') = true.
Proof.
  intros Hrow Hm.
  destruct (List.filter f (table_rows t)) as [|[k' r'] l] eqn:Hf.
  - assert (Hin : In (k, r) (List.filter f (table_rows t)))
      by (apply filter_In; split; [apply table_rows_In |]; assumption).
    rewrite Hf in Hin. destruct Hin.
  - exists k', r', l. split; [reflexivity |].
    assert (Hin : In (k', r') ((k', r') :: l)) by (left; reflexivity).
    rewrite <- Hf in Hin. apply filter_In in Hin as [Hin Hm'].
    apply table_rows_In in Hin. split; assumption.
Qed.

(** A well-formed login under a username that no row matches *)
Lemma login_unknown_username now req w :
  AuthRoutes.login_checks (req_body req) = [] ->
  (forall k r, users w !! k = Some r ->
     collation_eq (row_username r)
                  (text (body_username (req_body req))) = false) ->
  AuthRoutes.post_login now req w
    = (Return (message_only 400 "Invalid username or password"), w).
Proof.
  intros Hc Habsent.
  unfold AuthRoutes.post_login. rewrite Hc. cbn [isEmpty negb].
  unfold try_catch, bind. rewrite findByUsername_spec.
  rewrite no_match_filter; [reflexivity |].
  intros k r Hrow. exact (Habsent k r Hrow).
Qed.

(** A well-formed login under a username that a row matches, with a
    password that is not a string: [bcrypt.compare] throws, and so does
    [checkPassword]. *)
Lemma login_password_not_a_string now req w k r :
  AuthRoutes.login_checks (req_body req) = [] ->
  users w !! k = Some r ->
  collation_eq (row_username r)
               (text (body_username (req_body req))) = true ->
  is_string (body_password (req_body req)) = false ->
  AuthRoutes.post_login now req w
    = (Return (message_only 500 "Login failed, please try again"), w).
Proof.
  intros Hc Hrow Hmatch Hpw.
  unfold AuthRoutes.post_login. rewrite Hc. cbn [isEmpty negb].
  unfold try_catch, bind. rewrite findByUsername_spec.
  destruct (some_match_filter
              (fun kr => collation_eq (row_username kr.2)
                           (text (body_username (req_body req))))
              (users w) k r Hrow Hmatch)
    as [k1 [r1 [l [-> _]]]].
  cbn [map User.first_or_null].
  unfold User.checkPassword, try_catch, throw.
  destruct (body_password (req_body req)) as [[s | printed | b |] |];
    try discriminate Hpw; reflexivity.
Qed.

(** C7. The two failures of a login are not always alike.  Take two
    well-formed login requests that carry the same password, a JSON
    value that is not a string (a number, say, which [notEmpty()]
    accepts): the one under a username that no row matches is answered
    400 [Invalid username or password], the one under a username that
    exists is answered 500 [Login failed, please try again], because
    [bcrypt.compare] refuses the value.  Neither writes anything; the
    two answers tell whether the username exists. *)
Theorem C7_login_tells_accounts_apart draws now req1 req2 w k r :
  AuthRoutes.login_checks (req_body req1) = [] ->
  AuthRoutes.login_checks (req_body req2) = [] ->
  body_password (req_body req1) = body_password (req_body req2) ->
  is_string (body_password (req_body req2)) = false ->
  (forall k1 r1, users w !! k1 = Some r1 ->
     collation_eq (row_username r1)
                  (text (body_username (req_body req1))) = false) ->
  users w !! k = Some r ->
  collation_eq (row_username r)
               (text (body_username (req_body req2))) = true ->
  serve draws Login now req1 w
    = (Return (message_only 400 "Invalid username or password"), w)
  /\ serve draws Login now req2 w
     = (Return (message_only 500 "Login failed, please try again"), w)
  /\ message_only 400 "Invalid username or password"
     <> message_only 500 "Login failed, please try again".
Proof.
  intros Hc1 Hc2 _ Hpw Habsent Hrow Hmatch. cbn [serve].
  split; [exact (login_unknown_username now req1 w Hc1 Habsent) |].
  split; [| discriminate].
  exact (login_password_not_a_string now req2 w k r Hc2 Hrow Hmatch Hpw).
Qed.

(** X24. With a password that is a string the two failures of a login
    are alike: a well-formed request under a username that no row
    matches, and one under a username that exists with a password
    bcrypt does not accept, get the same answer, status 400 with the
    message [Invalid username or password], and write nothing.  The
    two runs may happen at different times and in different states. *)
Theorem login_failures_alike draws now1 now2 req1 req2 w1 w2 password :
  AuthRoutes.login_checks (req_body req1) = [] ->
  AuthRoutes.login_checks (req_body req2) = [] ->
  (forall k r, users w1 !! k = Some r ->
     collation_eq (row_username r)
                  (text (body_username (req_body req1))) = false) ->
  (exists k r, users w2 !! k = Some r
     /\ collation_eq (row_username r)
                     (text (body_username (req_body req2))) = true) ->
  body_password (req_body req2) = Some (BStr password) ->
  (forall k r, users w2 !! k = Some r ->
     collation_eq (row_username r)
                  (text (body_username (req_body req2))) = true ->
     bcrypt_compare password (row_password r) = false) ->
  exists answer,
    serve draws Login now1 req1 w1 = (Return answer, w1)
    /\ serve draws Login now2 req2 w2 = (Return answer, w2)
    /\ answer = message_only 400 "Invalid username or password".
Proof.
  intros Hc1 Hc2 Habsent [k [r [Hrow Hmatch]]] Hpw Hwrong.
  exists (message_only 400 "Invalid username or password").
  cbn [serve].
  split; [exact (login_unknown_username now1 req1 w1 Hc1 Habsent) |].
  split; [| reflexivity].
  unfold AuthRoutes.post_login. rewrite Hc2.
  cbn [isEmpty negb]. unfold try_catch, bind.
  rewrite findByUsername_spec.
  destruct (some_match_filter
              (fun kr => collation_eq (row_username kr.2)
                           (text (body_username (req_body req2))))
              (users w2) k r Hrow Hmatch)
    as [k2 [r2 [l [-> [Hr2 Hm]]]]].
  cbn [map User.first_or_null].
  unfold User.checkPassword, try_catch, ret. rewrite Hpw.
  cbn [User.password User.constructor select_star rd_password snd].
  rewrite (Hwrong k2 r2 Hr2 Hm). reflexivity.
Qed.

Lemma register_collision now req w k r :
  (forall s, collation_eq s s = true) ->
  AuthRoutes.register_checks (req_body req) = [] ->
  users w !! k = Some r ->
  row_username r = text (body_username (req_body req))
  \/ row_email r = text (body_email (req_body req)) ->
  exists message,
    AuthRoutes.post_register now req w
      = (Return (message_only 400 message), w)
    /\ (message = "Username already taken"
        \/ message = "Email already registered").
Proof.
  intros Hrefl Hc Hrow Hdup.
  unfold AuthRoutes.post_register. rewrite Hc. cbn [isEmpty negb].
  unfold try_catch, bind. rewrite findByUsername_spec.
  destruct (List.filter _ _) as [|r1 l1] eqn:Hf1;
    cbn [map User.first_or_null is_null negb].
  - rewrite findByEmail_spec.
    destruct Hdup as [Hu | He].
    + destruct (some_match_filter
                  (fun kr => collation_eq (row_username kr.2)
                               (text (body_username (req_body req))))
                  (users w) k r Hrow) as [k' [r' [l [Hf _]]]].
      * cbn [snd]. rewrite Hu. apply Hrefl.
      * rewrite Hf in Hf1. discriminate Hf1.
    + destruct (some_match_filter
                  (fun kr => collation_eq (row_email kr.2)
                               (text (body_email (req_body req))))
                  (users w) k r Hrow) as [k' [r' [l [-> _]]]].
      * cbn [snd]. rewrite He. apply Hrefl.
      * eexists. split; [reflexivity | right; reflexivity].
  - eexists. split; [reflexivity | left; reflexivity].
Qed.

(** C8. A well-formed registration whose username or email is that of
    an existing row is answered 400 with one of the two duplicate
    messages, and the world is exactly what it was: no salt was drawn,
    so [bcrypt.hash] has not run, and no row was inserted or changed. *)
Theorem C8_duplicate_registration draws now req w k r :
  (forall s, collation_eq s s = true) ->
  AuthRoutes.register_checks (req_body req) = [] ->
  users w !! k = Some r ->
  row_username r = text (body_username (req_body req))
  \/ row_email r = text (body_email (req_body req)) ->
  exists message,
    serve draws Register now req w = (Return (message_only 400 message), w)
    /\ (message = "Username already taken"
        \/ message = "Email already registered").
Proof. cbn [serve]. apply register_collision. Qed.
End Accounts.

(** ** Self-registration *)

Section Registration.
Context `{Platform}.

Lemma post_register_created now req w answer w' :
  AuthRoutes.post_register now req w = (Return answer, w') ->
  status answer = 201%nat ->
  w' = {| users := <[auto_increment w := registered_row now req w]>
                     (users w);
          auto_increment := auto_increment w + 1;
          salts_drawn := S (salts_drawn w) |}
  /\ answer =
       res_json 201
         (VObj [("message", VStr "Registration successful");
                ("token",
                 VPrim (PToken
                          (jwt_sign now
                             {| claim_id := auto_increment w;
                                claim_username :=
                                  text (body_username (req_body req));
                                claim_role := ROLES.USER |}
                             jwtSecret jwtExpiration)));
                ("user",
                 VObj [("id", VNum (auto_increment w));
                       ("username",
                        VStr (text (body_username (req_body req))));
                       ("email", VStr (text (body_email (req_body req))));
                       ("role", VStr ROLES.USER)])]).
Proof.
  open_model. unfold set_users. cbn [default users auto_increment].
  repeat branch; intros Hrun Hstatus; simplify_eq;
    try discriminate Hstatus.
  cbn [users] in *. rewrite lookup_insert_eq in *.
  cbn [User.first_or_null] in *. simplify_eq.
  unfold registered_row.
  match goal with
  | Hpw : body_password _ = Some (BStr _) |- _ => rewrite Hpw
  end.
  split; reflexivity.
Qed.

(** C2. Whatever the request body holds, a role field included, a
    registration that succeeds (201) has inserted exactly one row, and
    that row has role [user]; the user object and the token claims of
    the answer say [user] too.  No row that is an admin afterwards was
    written by the registration: each was the same admin row before. *)
Theorem C2_register_creates_user_role draws now req w answer w' :
  serve draws Register now req w = (Return answer, w') ->
  status answer = 201%nat ->
  exists r,
    users w' = <[auto_increment w := r]> (users w)
    /\ row_role r = ROLES.USER
    /\ row_username r = text (body_username (req_body req))
    /\ (forall userId r',
          users w' !! userId = Some r' ->
          row_role r' = ROLES.ADMIN ->
          users w !! userId = Some r')
    /\ body answer =
         Some (JObj
           [("message", JPrim (PStr "Registration successful"));
            ("token",
             JPrim (PToken
                      {| jwt_payload :=
                           {| claim_id := auto_increment w;
                              claim_username :=
                                text (body_username (req_body req));
                              claim_role := "user" |};
                         jwt_iat := now;
                         jwt_exp := now + jwtExpiration;
                         jwt_key := jwtSecret |}));
            ("user",
             JObj [("id", JPrim (PNum (auto_increment w)));
                   ("username",
                    JPrim (PStr (text (body_username (req_body req)))));
                   ("email",
                    JPrim (PStr (text (body_email (req_body req)))));
                   ("role", JPrim (PStr "user"))])]).
Proof.
  cbn [serve]. intros Hrun Hstatus.
  destruct (post_register_created now req w answer w' Hrun Hstatus)
    as [-> ->].
  exists (registered_row now req w). cbn [users].
  split; [reflexivity |]. split; [reflexivity |]. split; [reflexivity |].
  split; [| reflexivity].
  intros userId r' Hlook Hadmin.
  destruct (decide (auto_increment w = userId)) as [<- | Hne].
  - rewrite lookup_insert_eq in Hlook. simplify_eq; discriminate.
  - rewrite lookup_insert_ne in Hlook by assumption. assumption.
Qed.

(** The role field of the body is never read by the registration. *)
Lemma register_ignores_role now req role w :
  AuthRoutes.post_register now
    {| req_token := req_token req;
       req_params_id := req_params_id req;
       req_body := {| body_username := body_username (req_body req);
                      body_email := body_email (req_body req);
                      body_password := body_password (req_body req);
                      body_role := role |};
       req_user := req_user req |} w
  = AuthRoutes.post_register now req w.
Proof. reflexivity. Qed.

(** X21. Registering a username a second time: the first registration
    has succeeded, the second is turned away and what the first one wrote
    stays as it is. *)
Lemma register_twice now1 now2 req1 req2 w answer w1 :
  (forall s, collation_eq s s = true) ->
  AuthRoutes.post_register now1 req1 w = (Return answer, w1) ->
  status answer = 201%nat ->
  AuthRoutes.register_checks (req_body req2) = [] ->
  text (body_username (req_body req2))
    = text (body_username (req_body req1)) ->
  exists message,
    AuthRoutes.post_register now2 req2 w1
      = (Return (message_only 400 message), w1).
Proof.
  intros Hrefl Hrun Hstatus Hc Hsame.
  destruct (post_register_created now1 req1 w answer w1 Hrun Hstatus)
    as [Hw1 _].
  destruct (register_collision now2 req2 w1 (auto_increment w)
              (registered_row now1 req1 w) Hrefl Hc)
    as [message [Hrun2 _]].
  - rewrite Hw1. cbn [users]. apply lookup_insert_eq.
  - left. cbn [row_username registered_row]. symmetry. exact Hsame.
  - exists message. exact Hrun2.
Qed.
Lemma filter_nil_no_match (f : Z * row -> bool) (t : gmap Z row) k r :
  List.filter f (table_rows t) = [] -> t !! k = Some r -> f (k, r) = false.
Proof.
  intros Hf Hrow. destruct (f (k, r)) eqn:Hm; [| reflexivity].
  assert (Hin : In (k, r) (List.filter f (table_rows t)))
    by (apply filter_In; split; [apply table_rows_In |]; assumption).
  rewrite Hf in Hin. destruct Hin.
Qed.

(** A registration that succeeds has passed the validators and the
    username pre-check. *)
Lemma post_register_passed now req w answer w' :
  AuthRoutes.post_register now req w = (Return answer, w') ->
  status answer = 201%nat ->
  AuthRoutes.register_checks (req_body req) = []
  /\ forall k r, users w !! k = Some r ->
       collation_eq (row_username r)
                    (text (body_username (req_body req))) = false.
Proof.
  unfold AuthRoutes.post_register.
  destruct (AuthRoutes.register_checks (req_body req)) as [|e errors];
    cbn [isEmpty negb]; [| intros [= <- _] Hs; discriminate Hs].
  unfold try_catch, bind. rewrite findByUsername_spec.
  destruct (List.filter _ _) as [|kr l] eqn:Hf;
    cbn [map User.first_or_null is_null negb];
    [| intros [= <- _] Hs; discriminate Hs].
  intros _ _. split; [reflexivity |].
  intros k r Hrow.
  exact (filter_nil_no_match _ _ k r Hf Hrow).
Qed.

(** A registration that succeeds was given a string as its password. *)
Lemma post_register_password now req w answer w' :
  AuthRoutes.post_register now req w = (Return answer, w') ->
  status answer = 201%nat ->
  exists password, body_password (req_body req) = Some (BStr password).
Proof.
  open_model.
  repeat branch; intros Hrun Hstatus; simplify_eq;
    try discriminate Hstatus.
  eauto.
Qed.

(** X22. Registration followed by login: the credential that [createUser]
    stores is the one [checkPassword] verifies against.  Provided bcrypt
    verifies a password against its own hash, the account just created
    can log in with the username and password it registered with. *)
Lemma register_then_login now1 now2 req w answer w1 :
  (forall s, collation_eq s s = true) ->
  (forall password rounds salt,
     bcrypt_compare password (bcrypt_hash password rounds salt) = true) ->
  AuthRoutes.post_register now1 req w = (Return answer, w1) ->
  status answer = 201%nat ->
  exists answer',
    AuthRoutes.post_login now2 req w1 = (Return answer', w1)
    /\ status answer' = 200%nat.
Proof.
  intros Hrefl Hbcrypt Hrun Hstatus.
  destruct (post_register_passed now1 req w answer w1 Hrun Hstatus)
    as [Hc Hfree].
  destruct (post_register_created now1 req w answer w1 Hrun Hstatus)
    as [Hw1 _].
  destruct (post_register_password now1 req w answer w1 Hrun Hstatus)
    as [password Hpw].
  assert (Hlogin : AuthRoutes.login_checks (req_body req) = []).
  { unfold AuthRoutes.register_checks in Hc.
    apply app_eq_nil in Hc as [Hu Hc]. apply app_eq_nil in Hc as [_ Hp].
    unfold AuthRoutes.login_checks. rewrite Hu. cbn [app].
    unfold check in Hp |- *. rewrite Hpw in Hp |- *. cbn [toString] in *.
    destruct (isLength_min 6 password) eqn:Hlen; [| discriminate Hp].
    unfold notEmpty.
    destruct password; [discriminate Hlen |].
    reflexivity. }
  unfold AuthRoutes.post_login. rewrite Hlogin. cbn [isEmpty negb].
  unfold try_catch, bind. rewrite findByUsername_spec.
  destruct (some_match_filter
              (fun kr => collation_eq (row_username kr.2)
                           (text (body_username (req_body req))))
              (users w1) (auto_increment w) (registered_row now1 req w))
    as [k [r [l [-> [Hrow Hm]]]]].
  - rewrite Hw1. cbn [users]. apply lookup_insert_eq.
  - apply Hrefl.
  - cbn [map User.first_or_null].
    rewrite Hw1 in Hrow. cbn [users] in Hrow.
    destruct (decide (auto_increment w = k)) as [<- | Hne].
    + rewrite lookup_insert_eq in Hrow. injection Hrow as <-.
      unfold User.checkPassword, try_catch, ret, registered_row.
      rewrite Hpw.
      cbn [User.password User.constructor select_star rd_password snd
           row_password toString].
      rewrite Hbcrypt. cbn [negb]. eexists. split; reflexivity.
    + rewrite lookup_insert_ne in Hrow by assumption.
      cbn [snd] in Hm. rewrite (Hfree k r Hrow) in Hm. discriminate Hm.
Qed.
End Registration.

(** ** What an update writes *)

Section Updates.
Context `{Platform}.










End Updates.

(** ** Credential hashing around the store *)

Section Hashing.
Context `{Platform}.

(** What a registration stores is the output of [bcrypt.hash] on the
    password it was given, a string, with twelve rounds and a fresh
    salt. *)
Lemma created_row_credential now req w answer w' :
  AuthRoutes.post_register now req w = (Return answer, w') ->
  status answer = 201%nat ->
  exists password,
    body_password (req_body req) = Some (BStr password)
    /\ row_password <$> users w' !! auto_increment w
       = Some (bcrypt_hash password 12 (salts_drawn w)).
Proof.
  intros Hrun Hstatus.
  destruct (post_register_password now req w answer w' Hrun Hstatus)
    as [password Hpw].
  destruct (post_register_created now req w answer w' Hrun Hstatus)
    as [-> _].
  exists password. split; [exact Hpw |].
  cbn [users]. rewrite lookup_insert_eq. unfold registered_row.
  rewrite Hpw. reflexivity.
Qed.

(** [checkPassword] hands a password that is a string and the stored
    credential to [bcrypt.compare] and returns its verdict; any other
    value makes it throw. *)
Lemma checkPassword_spec userId r provided w :
  User.checkPassword (loaded userId r) provided w
  = match provided with
    | Some (BStr s) => (Return (bcrypt_compare s (row_password r)), w)
    | _ => (Throw "Password validation failed", w)
    end.
Proof. destruct provided as [[s | printed | b |] |]; reflexivity. Qed.
End Hashing.

(** ** The dashboard *)

Section DashboardStatistics.
Context `{Platform}.

Lemma getAllUsers_spec w :
  User.getAllUsers w =
    (Return (map User.constructor
                 (map select_public
                      (merge_sort newer_first (table_rows (users w))))),
     w).
Proof. reflexivity. Qed.

Lemma table_rows_length (t : gmap Z row) : length (table_rows t) = size t.
Proof.
  apply length_map_to_list.
Qed.

Lemma getAllUsers_length w us w' :
  User.getAllUsers w = (Return us, w') -> length us = size (users w).
Proof.
  rewrite getAllUsers_spec. intros [= <- _].
  rewrite !length_map.
  rewrite (Permutation_length (merge_sort_Permutation newer_first _)).
  apply table_rows_length.
Qed.

(** C10. The dashboard answers every request, authenticated or not: it
    ignores the request altogether.  Its [totalUsers] is the exact
    number of rows of the table and the database is left as it was.
    The same request without a token is refused (401) by the listing
    of users. *)
Theorem C10_dashboard_counts_users_unauthenticated draws now req w :
  (exists recentActivity,
     serve draws Dashboard now req w =
       (Return
          {| status := 200;
             body :=
               Some (JObj
                 [("stats",
                   JObj [("totalUsers",
                          JPrim (PNum (Z.of_nat (size (users w)))));
                         ("activeUsers",
                          JPrim (PNum (Z.of_nat (draws.1 mod 50 + 10))));
                         ("newUsersToday",
                          JPrim (PNum (Z.of_nat (draws.2 mod 10))))]);
                  ("recentActivity", recentActivity)]) |}, w))
  /\ serve draws Dashboard now (without_token req) w
     = serve draws Dashboard now req w
  /\ serve draws ListUsers now (without_token req) w
     = (Return (message_only 401 "Unauthorized"), w).
Proof.
  split; [| split; reflexivity].
  cbn [serve]. unfold Server.get_dashboard, try_catch, bind.
  destruct (User.getAllUsers w) as [o w'] eqn:Hall.
  pose proof Hall as Hspec. rewrite getAllUsers_spec in Hspec.
  injection Hspec as <- <-.
  rewrite (getAllUsers_length _ _ _ Hall).
  eexists. reflexivity.
Qed.
End DashboardStatistics.

(** * The properties at work on the seeded database *)

Section Scenarios.
Import Demo.

(** C3. The route documents a [password] field and hashes what it is
    given, but the model's [updateUser] lets only [username] and
    [email] through: the request is answered 200, [User updated
    successfully], a salt has been drawn, and the stored credential of
    the target is the old one, which the new password does not
    verify against. *)
Example C3_password_update_is_dropped :
  let req := as_admin 2 (new_password "newsecret") in
  UsersRoutes.update_checks (req_body req) = []
  /\ exists answer w',
       serve draws UpdateUser 300 req seeded = (Return answer, w')
       /\ status answer = 200%nat
       /\ salts_drawn w' = S (salts_drawn seeded)
       /\ users w' !! 2 = Some john_row
       /\ bcrypt_compare "newsecret" (row_password john_row) = false
       /\ bcrypt_compare "password123" (row_password john_row) = true.
Proof.
  split; [reflexivity |].
  eexists _, _. split; [vm_compute; reflexivity |].
  repeat split; vm_compute; reflexivity.
Qed.

Lemma C1_admin_gate_witness :
  serve draws ListUsers 300 (as_john 0 no_body) seeded
    = (Return (message_only 403 "Forbidden"), seeded)
  /\ serve draws DeleteUser 300 (as_admin 2 no_body) seeded
     = UsersRoutes.delete_handler 300
         (authenticated (as_admin 2 no_body) (jwt_payload admin_token))
         seeded.
Proof.
  split.
  - apply (C1_admin_gate draws ListUsers UsersRoutes.list_handler 300
             (as_john 0 no_body) seeded (Compact john_token)
             (jwt_payload john_token));
      [reflexivity | reflexivity | reflexivity | discriminate].
  - apply (C1_admin_gate draws DeleteUser UsersRoutes.delete_handler 300
             (as_admin 2 no_body) seeded (Compact admin_token)
             (jwt_payload admin_token)); reflexivity.
Defined.

Lemma C2_register_witness :
  exists answer w',
    serve draws Register 300 (anonymous alice) seeded = (Return answer, w')
    /\ status answer = 201%nat
    /\ exists r, users w' = <[3 := r]> (users seeded)
                 /\ row_role r = "user".
Proof.
  eexists _, _. split; [vm_compute; reflexivity |].
  split; [reflexivity |].
  edestruct (C2_register_creates_user_role draws 300 (anonymous alice)
               seeded) as [r [Hw [Hrole _]]];
    [vm_compute; reflexivity | reflexivity |].
  exists r. split; [exact Hw | exact Hrole].
Defined.

Lemma C6_get_user_witness :
  exists answer j,
    serve draws GetUser 300 (as_admin 2 no_body) seeded
      = (Return answer, seeded)
    /\ body answer = Some j
    /\ has_key "username" j = true
    /\ has_key "password" j = false.
Proof.
  destruct (C6_no_credential_in_responses draws GetUser 300
              (as_admin 2 no_body) seeded) as [answer [w' [Hrun Hclean]]].
  pose proof Hrun as Hvalue. vm_compute in Hvalue.
  injection Hvalue as Hanswer Hw'.
  exists answer. rewrite <- Hanswer in Hclean |- *.
  eexists. split; [vm_compute; reflexivity |].
  split; [reflexivity |]. split; [reflexivity |].
  apply Hclean. reflexivity.
Defined.

Lemma C4_self_demotion_witness :
  exists answer,
    serve draws UpdateUser 300 (as_admin 1 (new_role "user")) seeded
      = (Return answer, seeded)
    /\ status answer = 400%nat
    /\ users seeded !! 1 = Some admin_row
    /\ (UsersRoutes.update_checks (new_role "user") = [] ->
        answer = message_only 400
                   "You cannot remove your own admin privileges").
Proof.
  apply (C4_no_self_demotion draws 300 (as_admin 1 (new_role "user"))
           seeded (Compact admin_token) (jwt_payload admin_token)
           admin_row "user");
    [reflexivity | reflexivity | reflexivity | reflexivity
    | reflexivity | reflexivity | discriminate].
Defined.

Lemma C5_self_deletion_witness :
  serve draws DeleteUser 300 (as_admin 1 no_body) seeded
    = (Return (message_only 400 "You cannot delete your own account"),
       seeded)
  /\ users seeded !! 1 = Some admin_row.
Proof.
  apply (C5_no_self_deletion draws 300 (as_admin 1 no_body) seeded
           (Compact admin_token) (jwt_payload admin_token) admin_row);
    reflexivity.
Defined.

Lemma seeded_lookup k r :
  users seeded !! k = Some r ->
  (k = 1 /\ r = admin_row) \/ (k = 2 /\ r = john_row).
Proof.
  unfold seeded. cbn [users]. intros Hrow.
  destruct (decide (k = 2)) as [-> | Hne2].
  - rewrite lookup_insert_eq in Hrow. right. split; congruence.
  - rewrite lookup_insert_ne in Hrow by congruence.
    destruct (decide (k = 1)) as [-> | Hne1].
    + rewrite lookup_insert_eq in Hrow. left. split; congruence.
    + rewrite lookup_insert_ne, lookup_empty in Hrow by congruence.
      discriminate.
Qed.

Lemma C7_numeric_password_witness :
  serve draws Login 300 (anonymous (numeric_credentials "nobody" "123456"))
        seeded
    = (Return (message_only 400 "Invalid username or password"), seeded)
  /\ serve draws Login 300 (anonymous (numeric_credentials "admin" "123456"))
           seeded
     = (Return (message_only 500 "Login failed, please try again"), seeded)
  /\ message_only 400 "Invalid username or password"
     <> message_only 500 "Login failed, please try again".
Proof.
  apply (C7_login_tells_accounts_apart draws 300
           (anonymous (numeric_credentials "nobody" "123456"))
           (anonymous (numeric_credentials "admin" "123456"))
           seeded 1 admin_row).
  - reflexivity.
  - reflexivity.
  - reflexivity.
  - reflexivity.
  - intros k r Hrow.
    destruct (seeded_lookup k r Hrow) as [[-> ->] | [-> ->]]; reflexivity.
  - reflexivity.
  - reflexivity.
Defined.

Lemma login_failures_alike_witness :
  exists answer,
    serve draws Login 300 (anonymous (credentials "nobody" "admin123"))
          seeded = (Return answer, seeded)
    /\ serve draws Login 400 (anonymous (credentials "admin" "letmein"))
             seeded = (Return answer, seeded)
    /\ answer = message_only 400 "Invalid username or password".
Proof.
  apply (login_failures_alike draws 300 400
           (anonymous (credentials "nobody" "admin123"))
           (anonymous (credentials "admin" "letmein")) seeded seeded
           "letmein").
  - reflexivity.
  - reflexivity.
  - intros k r Hrow.
    destruct (seeded_lookup k r Hrow) as [[-> ->] | [-> ->]]; reflexivity.
  - exists 1, admin_row. split; reflexivity.
  - reflexivity.
  - intros k r Hrow Hm.
    destruct (seeded_lookup k r Hrow) as [[-> ->] | [-> ->]];
      [reflexivity | discriminate Hm].
Defined.

Lemma ci_eq_refl s : ci_eq s s = true.
Proof. apply String.eqb_refl. Qed.

Lemma C8_duplicate_witness :
  exists message,
    serve draws Register 300 (anonymous second_admin) seeded
      = (Return (message_only 400 message), seeded)
    /\ (message = "Username already taken"
        \/ message = "Email already registered").
Proof.
  apply (C8_duplicate_registration draws 300 (anonymous second_admin)
           seeded 1 admin_row).
  - exact ci_eq_refl.
  - reflexivity.
  - reflexivity.
  - left. reflexivity.
Defined.
End Scenarios.

(** * More of the service *)

(** ** Reasoning about what a computation keeps *)

Lemma preserves_ret {A} (P : world -> Prop) (a : A) : preserves P (ret a).
Proof. intros w o w' HP [= _ <-]. exact HP. Qed.

Lemma preserves_throw {A} (P : world -> Prop) e : preserves P (@throw A e).
Proof. intros w o w' HP [= _ <-]. exact HP. Qed.

Lemma preserves_query {A} (P : world -> Prop) (f : world -> A) :
  preserves P (fun w => (Return (f w), w)).
Proof. intros w o w' HP [= _ <-]. exact HP. Qed.

Lemma preserves_bind {A B} (P : world -> Prop) (m : M A) (k : A -> M B) :
  preserves P m -> (forall a, preserves P (k a)) -> preserves P (bind m k).
Proof.
  intros Hm Hk w o w' HP. unfold bind.
  destruct (m w) as [[a | e] w1] eqn:Hrun.
  - apply (Hk a w1). exact (Hm w _ w1 HP Hrun).
  - intros [= _ <-]. exact (Hm w _ w1 HP Hrun).
Qed.

Lemma preserves_try_catch {A} (P : world -> Prop) (m : M A) h :
  preserves P m -> (forall e, preserves P (h e)) ->
  preserves P (try_catch m h).
Proof.
  intros Hm Hh w o w' HP. unfold try_catch.
  destruct (m w) as [[a | e] w1] eqn:Hrun.
  - intros [= _ <-]. exact (Hm w _ w1 HP Hrun).
  - apply (Hh e w1). exact (Hm w _ w1 HP Hrun).
Qed.

(** Whatever the middleware in front of a handler does, it writes
    nothing itself. *)
Lemma route_preserves (P : world -> Prop) chain handler now req :
  (forall req', preserves P (handler now req')) ->
  preserves P (route chain handler now req).
Proof.
  intros Hh. revert req.
  induction chain as [|m chain IH]; intros req; cbn [route]; [apply Hh |].
  destruct (m now req) as [answer | req']; [apply preserves_ret | apply IH].
Qed.

(** One step of a structural proof that a computation keeps a property *)
Ltac keep_step :=
  first
    [ apply preserves_ret
    | apply preserves_throw
    | apply preserves_query
    | apply preserves_try_catch; [| intros ?]
    | apply preserves_bind; [| intros ?]
    | apply route_preserves; intros ?
    | lazymatch goal with
      | |- preserves _ (match ?x with _ => _ end) => destruct x eqn:?
      end ].

Section Invariant.
Context `{Platform}.
Variable P : world -> Prop.
Hypothesis P_salt :
  forall password rounds, preserves P (User.bcrypt_hash_call password rounds).
Hypothesis P_insert :
  forall now username email password role,
    valid_role role ->
    preserves P (pool.insert now username email password role).
Hypothesis P_update :
  forall now assignments userId,
    Forall (fun cv : string * string => cv.1 = "role" -> valid_role cv.2)
           assignments ->
    preserves P (pool.update now assignments userId).
Hypothesis P_delete : forall userId, preserves P (pool.delete userId).

Lemma allowed_assignments_no_role updates :
  Forall (fun cv : string * string => cv.1 = "role" -> valid_role cv.2)
         (User.allowed_assignments updates).
Proof.
  unfold User.allowed_assignments.
  induction updates as [|[field [value|]] updates IH]; cbn [flat_map];
    [constructor | | exact IH].
  cbn [fst snd]. destruct (includes _ field) eqn:Hin; [| exact IH].
  cbn [app]. constructor; [| exact IH].
  cbn [fst]. intros ->. discriminate Hin.
Qed.

Lemma includes_roles role :
  includes ROLES.values role = true -> valid_role role.
Proof.
  unfold includes, ROLES.values. cbn [existsb]. rewrite orb_false_r.
  intros Hin. apply orb_true_iff in Hin as [Hin | Hin];
    apply String.eqb_eq in Hin; [left | right]; exact Hin.
Qed.

Lemma create_checks_role b :
  UsersRoutes.create_checks b = [] ->
  valid_role (default ROLES.USER (body_role b)).
Proof.
  unfold UsersRoutes.create_checks. intros Hc.
  apply app_eq_nil in Hc as [_ Hc].
  apply app_eq_nil in Hc as [_ Hc].
  apply app_eq_nil in Hc as [_ Hc].
  unfold check in Hc. rewrite toString_text in Hc.
  destruct (isIn _ (text (body_role b))) eqn:Hin; [| discriminate Hc].
  destruct (body_role b) as [role|]; cbn [default text] in *.
  - apply includes_roles. exact Hin.
  - right. reflexivity.
Qed.

Lemma findById_preserves userId : preserves P (User.findById userId).
Proof. unfold User.findById, pool.select_by_id. repeat keep_step. Qed.

Lemma createUser_preserves now username email password role :
  valid_role (default ROLES.USER role) ->
  preserves P (User.createUser now username email password role).
Proof.
  intros Hrole. unfold User.createUser. cbv zeta.
  keep_step; [| repeat keep_step].
  keep_step; [apply P_salt |].
  keep_step; [apply P_insert, Hrole | apply findById_preserves].
Qed.

Lemma updateUser_preserves now userId updates :
  preserves P (User.updateUser now userId updates).
Proof.
  unfold User.updateUser. cbv zeta.
  keep_step; [| repeat keep_step].
  keep_step; [apply findById_preserves |].
  keep_step; [apply P_update, allowed_assignments_no_role |].
  apply findById_preserves.
Qed.

Lemma updateUserRole_preserves now userId newRole :
  preserves P (User.updateUserRole now userId newRole).
Proof.
  unfold User.updateUserRole.
  keep_step; [| repeat keep_step].
  destruct (includes ROLES.values newRole) eqn:Hin; cbn [negb];
    [| apply preserves_throw].
  keep_step; [| apply findById_preserves].
  apply P_update. constructor; [| constructor].
  intros _. apply includes_roles, Hin.
Qed.

Lemma deleteUser_preserves userId : preserves P (User.deleteUser userId).
Proof.
  unfold User.deleteUser.
  keep_step; [| repeat keep_step].
  keep_step; [apply P_delete | repeat keep_step].
Qed.

(** Every endpoint keeps a property that hashing, a well-formed INSERT,
    a well-formed UPDATE and DELETE keep. *)
Lemma serve_preserves draws e now req : preserves P (serve draws e now req).
Proof.
  destruct e; cbn [serve].
  - unfold AuthRoutes.post_register. cbv zeta.
    destruct (negb _); [apply preserves_ret |].
    unfold User.findByUsername, User.findByEmail,
      pool.select_by_username, pool.select_by_email.
    repeat first [ apply createUser_preserves; right; reflexivity
                 | keep_step ].
  - unfold AuthRoutes.post_login, User.findByUsername, User.checkPassword,
      pool.select_by_username. cbv zeta.
    repeat keep_step.
  - unfold AuthRoutes.get_me, AuthRoutes.me_handler.
    repeat first [ apply findById_preserves | keep_step ].
  - unfold UsersRoutes.get_all, UsersRoutes.list_handler, User.getAllUsers,
      pool.select_all_public.
    repeat keep_step.
  - unfold UsersRoutes.get_by_id, UsersRoutes.get_handler. cbv zeta.
    repeat first [ apply findById_preserves | keep_step ].
  - unfold UsersRoutes.post. apply route_preserves. intros req'.
    unfold UsersRoutes.create_handler. cbv zeta.
    destruct (UsersRoutes.create_checks (req_body req')) eqn:Hc;
      cbn [isEmpty negb]; [| apply preserves_ret].
    unfold User.findByUsername, User.findByEmail,
      pool.select_by_username, pool.select_by_email.
    repeat first [ apply createUser_preserves, create_checks_role, Hc
                 | keep_step ].
  - unfold UsersRoutes.put_by_id. apply route_preserves. intros req'.
    unfold UsersRoutes.update_handler. cbv zeta.
    repeat first [ apply findById_preserves
                 | apply updateUser_preserves
                 | apply updateUserRole_preserves
                 | apply P_salt
                 | keep_step ].
  - unfold UsersRoutes.delete_by_id, UsersRoutes.delete_handler. cbv zeta.
    repeat first [ apply findById_preserves
                 | apply deleteUser_preserves
                 | keep_step ].
  - unfold Server.get_dashboard, User.getAllUsers, pool.select_all_public.
    repeat keep_step.
Qed.
End Invariant.

(** ** The table stays well-formed *)

Section Integrity.
Context `{Platform}.

Lemma hash_users password rounds w o w' :
  User.bcrypt_hash_call password rounds w = (o, w') ->
  users w' = users w /\ auto_increment w' = auto_increment w.
Proof.
  unfold User.bcrypt_hash_call, throw.
  destruct password as [[s | printed | b |] |]; intros [= _ <-];
    split; reflexivity.
Qed.

Lemma insert_cases now username email password role w o w' :
  pool.insert now username email password role w = (o, w') ->
  (auto_increment w' = auto_increment w
   \/ auto_increment w' = auto_increment w + 1)
  /\ (users w' = users w
      \/ (pool.violates_unique (users w) None username email = false
          /\ auto_increment w' = auto_increment w + 1
          /\ users w' =
               <[auto_increment w :=
                   {| row_username := username; row_email := email;
                      row_password := password; row_role := role;
                      row_created_at := now; row_updated_at := now |}]>
                 (users w))).
Proof.
  unfold pool.insert.
  destruct (negb (fits 50 username && fits 100 email));
    [intros [= _ <-]; split; left; reflexivity |].
  cbv zeta.
  destruct (pool.violates_unique _ _ _ _) eqn:Hv; intros [= _ <-];
    (split; [right; reflexivity |]); [left | right; repeat split];
    reflexivity.
Qed.

Lemma update_cases now assignments userId w o w' :
  pool.update now assignments userId w = (o, w') ->
  auto_increment w' = auto_increment w
  /\ (users w' = users w
      \/ exists r,
           users w !! userId = Some r
           /\ let r' := pool.touch now
                          (fold_left
                             (fun acc cv => pool.assign acc cv.1 cv.2)
                             assignments r) in
              pool.violates_unique (users w) (Some userId)
                                   (row_username r') (row_email r') = false
              /\ users w' = <[userId := r']> (users w)).
Proof.
  unfold pool.update.
  destruct (users w !! userId) as [r|] eqn:Hrow;
    [| intros [= _ <-]; split; [| left]; reflexivity].
  destruct (negb (forallb pool.column_fits assignments));
    [intros [= _ <-]; split; [| left]; reflexivity |].
  cbv zeta.
  destruct (pool.violates_unique _ _ _ _) eqn:Hv; intros [= _ <-];
    (split; [reflexivity |]); [left; reflexivity |].
  right. exists r. split; [reflexivity |]. split; [exact Hv | reflexivity].
Qed.

Lemma delete_cases userId w o w' :
  pool.delete userId w = (o, w') ->
  auto_increment w' = auto_increment w
  /\ (users w' = users w \/ users w' = base.delete userId (users w)).
Proof.
  unfold pool.delete.
  destruct (users w !! userId); intros [= _ <-];
    (split; [reflexivity |]); [right | left]; reflexivity.
Qed.



(** The store sees to it that every key in use stays below the next
    AUTO_INCREMENT value, whatever statement it is sent: an INSERT takes
    the counter as its key and advances it, and no other statement adds
    a key.  So it is with every endpoint. *)
Theorem ids_stay_below draws e now req w o w' :
  ids_below w ->
  serve draws e now req w = (o, w') ->
  ids_below w'.
Proof.
  apply (serve_preserves ids_below).
  - intros password rounds w0 o0 w0' HP Hrun.
    apply hash_users in Hrun as [Hu Ha]. unfold ids_below.
    rewrite Hu, Ha. exact HP.
  - intros t username email password role _ w0 o0 w0' HP Hrun.
    apply insert_cases in Hrun as [Ha [Hu | [_ [Ha' Hu]]]];
      unfold ids_below; rewrite Hu; intros k r Hrow.
    + pose proof (HP k r Hrow). lia.
    + destruct (decide (auto_increment w0 = k)) as [<- | Hne]; [lia |].
      rewrite lookup_insert_ne in Hrow by assumption.
      pose proof (HP k r Hrow). lia.
  - intros t assignments userId _ w0 o0 w0' HP Hrun.
    apply update_cases in Hrun as [Ha [Hu | [r [Hr [_ Hu]]]]];
      unfold ids_below; rewrite Hu, Ha; [exact HP |].
    intros k r' Hrow.
    destruct (decide (userId = k)) as [<- | Hne]; [exact (HP userId r Hr) |].
    rewrite lookup_insert_ne in Hrow by assumption. exact (HP k r' Hrow).
  - intros userId w0 o0 w0' HP Hrun.
    apply delete_cases in Hrun as [Ha [Hu | Hu]];
      unfold ids_below; rewrite Hu, Ha; [exact HP |].
    intros k r Hrow. apply lookup_delete_Some in Hrow as [_ Hrow].
    exact (HP k r Hrow).
Qed.
End Integrity.

Section Constraints.
Context `{Platform}.
Hypothesis collation_sym : forall a b, collation_eq a b = collation_eq b a.

Lemma violates_unique_false (t : gmap Z row) except username email k r :
  pool.violates_unique t except username email = false ->
  t !! k = Some r -> Some k <> except ->
  collation_eq (row_username r) username = false
  /\ collation_eq (row_email r) email = false.
Proof.
  unfold pool.violates_unique. intros Hv Hrow Hne.
  destruct (collation_eq (row_username r) username
            || collation_eq (row_email r) email) eqn:Hm.
  - assert (Hex : existsb
                    (fun kr : Z * row =>
                       negb (bool_decide (Some kr.1 = except))
                       && (collation_eq (row_username kr.2) username
                           || collation_eq (row_email kr.2) email))
                    (table_rows t) = true).
    { apply existsb_exists. exists (k, r).
      split; [apply table_rows_In, Hrow |].
      cbn [fst snd]. rewrite Hm, bool_decide_eq_false_2 by assumption.
      reflexivity. }
    rewrite Hex in Hv. discriminate Hv.
  - apply orb_false_iff in Hm. exact Hm.
Qed.

Lemma insert_row_unique (t : gmap Z row) (k : Z) r' :
  (forall k1 k2 r1 r2,
     t !! k1 = Some r1 -> t !! k2 = Some r2 -> k1 <> k2 ->
     collation_eq (row_username r1) (row_username r2) = false
     /\ collation_eq (row_email r1) (row_email r2) = false) ->
  (forall k0 r0, t !! k0 = Some r0 -> k0 <> k ->
     collation_eq (row_username r0) (row_username r') = false
     /\ collation_eq (row_email r0) (row_email r') = false) ->
  forall k1 k2 r1 r2,
    <[k := r']> t !! k1 = Some r1 -> <[k := r']> t !! k2 = Some r2 ->
    k1 <> k2 ->
    collation_eq (row_username r1) (row_username r2) = false
    /\ collation_eq (row_email r1) (row_email r2) = false.
Proof.
  intros Hold Hnew k1 k2 r1 r2 H1 H2 Hne.
  destruct (decide (k = k1)) as [<- | Hk1];
    destruct (decide (k = k2)) as [<- | Hk2]; try congruence.
  - rewrite lookup_insert_eq in H1. injection H1 as <-.
    rewrite lookup_insert_ne in H2 by assumption.
    rewrite (collation_sym (row_username r')), (collation_sym (row_email r')).
    apply (Hnew k2 r2 H2). congruence.
  - rewrite lookup_insert_eq in H2. injection H2 as <-.
    rewrite lookup_insert_ne in H1 by assumption.
    apply (Hnew k1 r1 H1). congruence.
  - rewrite lookup_insert_ne in H1, H2 by assumption.
    exact (Hold k1 k2 r1 r2 H1 H2 Hne).
Qed.

(** With a collation whose comparison is symmetric, the store keeps its
    two UNIQUE constraints, whatever statement it is sent: starting from
    a table in which no two rows agree on the username or on the email,
    no request leads to a table in which two do. *)
Theorem keys_stay_unique draws e now req w o w' :
  unique_keys w ->
  serve draws e now req w = (o, w') ->
  unique_keys w'.
Proof.
  apply (serve_preserves unique_keys).
  - intros password rounds w0 o0 w0' HP Hrun.
    apply hash_users in Hrun as [Hu _]. unfold unique_keys. rewrite Hu.
    exact HP.
  - intros t username email password role _ w0 o0 w0' HP Hrun.
    apply insert_cases in Hrun as [_ [Hu | [Hv [_ Hu]]]];
      unfold unique_keys; rewrite Hu; [exact HP |].
    apply insert_row_unique; [exact HP |].
    intros k0 r0 Hrow _. cbn [row_username row_email].
    apply (violates_unique_false _ _ _ _ k0 r0 Hv Hrow). discriminate.
  - intros t assignments userId _ w0 o0 w0' HP Hrun.
    apply update_cases in Hrun as [_ [Hu | [r [Hr [Hv Hu]]]]];
      unfold unique_keys; rewrite Hu; [exact HP |].
    apply insert_row_unique; [exact HP |].
    intros k0 r0 Hrow Hne.
    apply (violates_unique_false _ _ _ _ k0 r0 Hv Hrow). congruence.
  - intros userId w0 o0 w0' HP Hrun.
    apply delete_cases in Hrun as [_ [Hu | Hu]];
      unfold unique_keys; rewrite Hu; [exact HP |].
    intros k1 k2 r1 r2 H1 H2 Hne.
    apply lookup_delete_Some in H1 as [_ H1].
    apply lookup_delete_Some in H2 as [_ H2].
    exact (HP k1 k2 r1 r2 H1 H2 Hne).
Qed.
End Constraints.

(** ** Reading the table *)

Section Listing.
Context `{Platform}.

Lemma newer_first_total : Total newer_first.
Proof. intros a b. unfold newer_first. lia. Qed.

Lemma newer_first_transitive : Transitive newer_first.
Proof. intros a b c. unfold newer_first. lia. Qed.

(** X4. [getAllUsers] writes nothing and returns one instance for every
    row of the table, the newest first, none of them carrying the
    credential. *)
Theorem getAllUsers_newest_first w :
  exists us,
    User.getAllUsers w = (Return us, w)
    /\ us ≡ₚ map (fun kr => User.constructor (select_public kr))
                 (map_to_list (users w))
    /\ StronglySorted
         (fun a b => User.created_at b <= User.created_at a) us
    /\ Forall (fun u => User.password u = None) us.
Proof.
  eexists. split; [apply getAllUsers_spec |].
  rewrite map_map. split; [| split].
  - apply Permutation_map. unfold table_rows.
    apply merge_sort_Permutation.
  - apply (StronglySorted_fmap _ newer_first); [intros a b Hab; exact Hab |].
    apply StronglySorted_merge_sort;
      [apply newer_first_transitive | apply newer_first_total].
  - apply Forall_forall. intros u Hu. apply list_elem_of_In in Hu.
    apply in_map_iff in Hu as [kr [<- _]]. reflexivity.
Qed.

(** X5. The endpoints that only read -- login, whoami, the two GET
    routes of the user management and the dashboard -- leave the world
    exactly as it was, whatever they answer: no row changes, no key is
    used up and no salt is drawn. *)
Theorem reading_endpoints_write_nothing draws e now req w o w' :
  In e [Login; Whoami; ListUsers; GetUser; Dashboard] ->
  serve draws e now req w = (o, w') ->
  w' = w.
Proof.
  intros He.
  assert (Hcases : e = Login \/ e = Whoami \/ e = ListUsers
                   \/ e = GetUser \/ e = Dashboard)
    by (cbn [In] in He; intuition congruence).
  clear He.
  destruct Hcases as [-> | [-> | [-> | [-> | ->]]]]; cbn [serve];
    open_model; repeat branch; intros Hrun; simplify_eq; reflexivity.
Qed.
End Listing.

(** ** Creating accounts *)

Section Creating.
Context `{Platform}.







End Creating.

(** ** Deleting and updating accounts *)

Section Managing.
Context `{Platform}.









End Managing.

Section Changing.
Context `{Platform}.

Lemma violates_unique_true (t : gmap Z row) except username email k r :
  t !! k = Some r -> Some k <> except ->
  collation_eq (row_username r) username = true ->
  pool.violates_unique t except username email = true.
Proof.
  intros Hrow Hne Hm. unfold pool.violates_unique.
  apply existsb_exists. exists (k, r).
  split; [apply table_rows_In, Hrow |].
  cbn [fst snd]. rewrite Hm, bool_decide_eq_false_2 by assumption.
  reflexivity.
Qed.



Lemma assign_username_kept r column value :
  column <> "username" ->
  row_username (pool.assign r column value) = row_username r.
Proof.
  intros Hne. unfold pool.assign.
  destruct (String.eqb column "username") eqn:Hc.
  - apply String.eqb_eq in Hc. contradiction.
  - destruct (String.eqb column "email"); [reflexivity |].
    destruct (String.eqb column "password"); [reflexivity |].
    destruct (String.eqb column "role"); reflexivity.
Qed.

Lemma fold_assign_username_kept assignments :
  Forall (fun cv : string * string => cv.1 <> "username") assignments ->
  forall r,
    row_username
      (fold_left (fun acc cv => pool.assign acc cv.1 cv.2) assignments r)
    = row_username r.
Proof.
  induction 1 as [|cv assignments Hcv _ IH]; intros r; [reflexivity |].
  cbn [fold_left]. rewrite IH. apply assign_username_kept, Hcv.
Qed.

Lemma allowed_assignments_other_fields updates :
  Forall (fun fv : string * option string => fv.1 <> "username") updates ->
  Forall (fun cv : string * string => cv.1 <> "username")
         (User.allowed_assignments updates).
Proof.
  unfold User.allowed_assignments.
  induction 1 as [|[field [value|]] updates Hfv _ IH]; cbn [flat_map];
    [constructor | | exact IH].
  cbn [fst snd]. destruct (includes _ field); [| exact IH].
  cbn [app]. constructor; [exact Hfv | exact IH].
Qed.

(** [updateUser] asked to give a row the username of another row *)
Lemma updateUser_username_taken now userId username rest w r k' r' :
  users w !! userId = Some r ->
  users w !! k' = Some r' ->
  k' <> userId ->
  collation_eq (row_username r') username = true ->
  Forall (fun fv : string * option string => fv.1 <> "username") rest ->
  User.updateUser now userId (("username", Some username) :: rest) w
  = (Throw "Database operation failed: unable to update user", w).
Proof.
  intros Hrow Hrow' Hne Hm Hrest.
  unfold User.updateUser, try_catch, bind, throw.
  change (User.allowed_assignments (("username", Some username) :: rest))
    with (("username", username) :: User.allowed_assignments rest).
  cbn [length Nat.eqb]. unfold pool.update. rewrite Hrow. cbv zeta.
  rewrite (violates_unique_true _ _ _ _ k' r' Hrow');
    [destruct (negb (forallb _ _)); reflexivity | congruence |].
  cbn [pool.touch row_username fold_left fst snd].
  rewrite fold_assign_username_kept
    by (apply allowed_assignments_other_fields, Hrest).
  exact Hm.
Qed.

(** X11. The update route has no pre-check of its own: when the username
    it is asked to give to another account is that of a third row, the
    route answers 500 [Could not update user], and no row has changed.
    The UNIQUE constraint stops the UPDATE, unless [bcrypt.hash] or the
    length of the column has refused a value of the body before. *)
Theorem update_duplicate_username_500 now req w subject r k' r' username :
  (forall s, collation_eq s s = true) ->
  UsersRoutes.update_checks (req_body req) = [] ->
  req_user req = Some subject ->
  req_params_id req <> claim_id subject ->
  users w !! req_params_id req = Some r ->
  body_username (req_body req) = Some username ->
  users w !! k' = Some r' ->
  k' <> req_params_id req ->
  row_username r' = username ->
  exists w',
    UsersRoutes.update_handler now req w
      = (Return (message_only 500 "Could not update user"), w')
    /\ users w' = users w
    /\ auto_increment w' = auto_increment w.
Proof.
  intros Hrefl Hc Huser Hother Hrow Hname Hrow' Hne Hdup.
  assert (Htruthy : truthy (Some (BStr username)) = true).
  { pose proof Hc as Hc0. unfold UsersRoutes.update_checks in Hc0.
    apply app_eq_nil in Hc0 as [Hu _].
    exact (check_optional_nil _ _ _ _ _ Hu Hname). }
  assert (Hm : collation_eq (row_username r') username = true)
    by (rewrite Hdup; apply Hrefl).
  apply Z.eqb_neq in Hother.
  unfold UsersRoutes.update_handler. rewrite Hc, Huser. cbn [isEmpty negb].
  unfold try_catch at 1. unfold bind at 1.
  rewrite findById_spec, Hrow. cbn [fmap option_fmap option_map].
  rewrite loaded_id, Hother. cbn [andb].
  rewrite Hname.
  assert (Hset : UsersRoutes.set_if_truthy "username" (Some username)
                 = [("username", Some username)])
    by (unfold UsersRoutes.set_if_truthy;
        cbn [fmap option_fmap option_map]; rewrite Htruthy; reflexivity).
  rewrite !Hset.
  assert (Hemail :
            Forall (fun fv : string * option string => fv.1 <> "username")
                   (UsersRoutes.set_if_truthy
                      "email" (body_email (req_body req)))).
  { unfold UsersRoutes.set_if_truthy.
    destruct (truthy (BStr <$> body_email (req_body req)));
      repeat constructor; cbn [fst]; discriminate. }
  cbn [app].
  destruct (truthy (body_password (req_body req))).
  - unfold bind, User.bcrypt_hash_call, ret, throw.
    destruct (body_password (req_body req)) as [[s | printed | b |] |];
      try (eexists; split; [reflexivity |]; split; reflexivity).
    rewrite (updateUser_username_taken now _ username _ _ r k' r');
      [| exact Hrow | exact Hrow' | exact Hne | exact Hm |].
    + eexists. split; [reflexivity |]. split; reflexivity.
    + apply Forall_app. split; [exact Hemail |].
      repeat constructor; cbn [fst]; discriminate.
  - unfold bind, ret.
    rewrite (updateUser_username_taken now _ username _ _ r k' r');
      [| exact Hrow | exact Hrow' | exact Hne | exact Hm | exact Hemail].
    eexists. split; [reflexivity |]. split; reflexivity.
Qed.
End Changing.

(** ** Sessions *)

Section Sessions.
Context `{Platform}.

(** X12. A login that names an account by a username only that account
    matches, with a password, a string, that bcrypt accepts against its
    stored credential, is answered 200 and writes nothing.  The token it issues
    is signed with the server's secret, runs out [jwtExpiration] after
    it was issued, and carries the id, username and role of the row as
    they are stored, which is also what the [user] of the answer shows. *)
Theorem login_issues_token_for_the_row now req w k r password :
  AuthRoutes.login_checks (req_body req) = [] ->
  users w !! k = Some r ->
  (forall k' r', users w !! k' = Some r' ->
     collation_eq (row_username r')
                  (text (body_username (req_body req))) = true ->
     k' = k) ->
  collation_eq (row_username r)
               (text (body_username (req_body req))) = true ->
  body_password (req_body req) = Some (BStr password) ->
  bcrypt_compare password (row_password r) = true ->
  let role := User.role (loaded k r) in
  AuthRoutes.post_login now req w =
    (Return
       {| status := 200;
          body :=
            Some (JObj
              [("message", JPrim (PStr "Login successful"));
               ("token",
                JPrim (PToken
                         {| jwt_payload :=
                              {| claim_id := k;
                                 claim_username := row_username r;
                                 claim_role := role |};
                            jwt_iat := now;
                            jwt_exp := now + jwtExpiration;
                            jwt_key := jwtSecret |}));
               ("user",
                JObj [("id", JPrim (PNum k));
                      ("username", JPrim (PStr (row_username r)));
                      ("email", JPrim (PStr (row_email r)));
                      ("role", JPrim (PStr role))])]) |}, w).
Proof.
  intros Hc Hrow Honly Hm Hbody Hpw role.
  unfold AuthRoutes.post_login. rewrite Hc, Hbody. cbn [isEmpty negb].
  unfold try_catch, bind. rewrite findByUsername_spec.
  destruct (some_match_filter
              (fun kr => collation_eq (row_username kr.2)
                           (text (body_username (req_body req))))
              (users w) k r Hrow Hm) as [k1 [r1 [l [-> [Hrow1 Hm1]]]]].
  cbn [snd] in Hm1. pose proof (Honly k1 r1 Hrow1 Hm1) as ->.
  assert (r1 = r) as -> by congruence.
  cbn [map User.first_or_null].
  unfold User.checkPassword, try_catch, ret.
  cbn [User.password User.constructor select_star rd_password snd].
  rewrite Hpw. reflexivity.
Qed.

(** X13. Whoami, once its middleware has put the claims of the token in
    [req.user], answers from the table and not from the token: 404 when
    the id of the claims has no row any more, and otherwise the id,
    username, email, role and timestamps of the row as it is now,
    without the credential.  It writes nothing. *)
Theorem whoami_reads_the_table now req w subject :
  req_user req = Some subject ->
  AuthRoutes.me_handler now req w =
    (Return
       match users w !! claim_id subject with
       | None => message_only 404 "User not found"
       | Some r =>
           {| status := 200;
              body :=
                Some (JObj
                  [("message",
                    JPrim (PStr "Profile retrieved successfully"));
                   ("user",
                    JObj [("id", JPrim (PNum (claim_id subject)));
                          ("username", JPrim (PStr (row_username r)));
                          ("email", JPrim (PStr (row_email r)));
                          ("role",
                           JPrim (PStr (User.role
                                          (loaded (claim_id subject) r))));
                          ("created_at", JPrim (PDate (row_created_at r)));
                          ("updated_at",
                           JPrim (PDate (row_updated_at r)))])]) |}
       end, w).
Proof.
  intros Huser. unfold AuthRoutes.me_handler, try_catch, bind.
  rewrite Huser, findById_spec.
  destruct (users w !! claim_id subject) as [r|]; reflexivity.
Qed.
End Sessions.

(** ** Seeding the sample accounts *)

Section SampleAccounts.
Context `{Platform}.


(** X14. Seeding is idempotent: on a table that holds at least one row
    [createSampleUsers] reports success and changes nothing, so the
    accounts of a running installation are never overwritten at startup. *)
Theorem seeding_skips_a_populated_table clock w :
  users w <> ∅ ->
  DbInit.createSampleUsers clock w = (Return true, w).
Proof.
  intros Hne. apply map_size_non_empty_iff in Hne.
  unfold DbInit.createSampleUsers, try_catch, bind, DbInit.select_count.
  destruct (size (users w)) as [|n] eqn:Hsize; [contradiction |].
  reflexivity.
Qed.

End SampleAccounts.

(** ** The pages in the browser *)

Section Pages.
Import Frontend.

(** X16. [getTimeAgo] never prints sixty minutes or more, prints hours
    only from one to twenty-three and days only from one on; for a date
    that is not in the future the minutes are not negative. *)
Theorem elapsed_bounds now date :
  match elapsed now date with
  | MinutesAgo n => n < 60 /\ (date <= now -> 0 <= n)
  | HoursAgo n => 1 <= n < 24
  | DaysAgo n => 1 <= n
  end.
Proof.
  unfold elapsed. cbv zeta.
  destruct ((now - date) / 60000 <? 60) eqn:Hm;
    [apply Z.ltb_lt in Hm | apply Z.ltb_ge in Hm].
  - split; [exact Hm |]. intros Hle. apply Z.div_pos; lia.
  - destruct ((now - date) / 3600000 <? 24) eqn:Hh;
      [apply Z.ltb_lt in Hh | apply Z.ltb_ge in Hh].
    + split; [| exact Hh].
      apply Z.div_le_lower_bound; [lia |].
      assert (60 * 60000 <= now - date); [| lia].
      pose proof (Z.mul_div_le (now - date) 60000). lia.
    + apply Z.div_le_lower_bound; [lia |].
      assert (24 * 3600000 <= now - date); [| lia].
      pose proof (Z.mul_div_le (now - date) 3600000). lia.
Qed.

(** X17. [script.js] leaves a visitor on the admin dashboard only with a
    token whose payload decodes, has not run out and says role [admin];
    the signature plays no part.  Anyone else is sent to another page. *)
Theorem admin_page_needs_admin_payload nowMs path b :
  location_href b = None ->
  str_includes path "login.html" = false ->
  str_includes path "register.html" = false ->
  str_includes path "admin-dashboard.html" = true ->
  location_href (onPageLoad nowMs path b) = None
  <-> exists t,
        held_token b = Some (Compact t)
        /\ claim_role (jwt_payload t) = "admin"
        /\ (jwt_exp t = 0 \/ nowMs < jwt_exp t * 1000).
Proof.
  intros Hhere Hl Hr Ha.
  unfold onPageLoad, getCurrentPage. rewrite Hl, Hr, Ha.
  unfold handleAuthenticationRouting.
  destruct (held_token b) as [[text | t]|] eqn:Htok; cbn [decode].
  - split; [discriminate | intros [t [[=] _]]].
  - cbv zeta.
    destruct (jwt_exp t =? 0) eqn:Hz;
      [apply Z.eqb_eq in Hz | apply Z.eqb_neq in Hz];
      destruct (jwt_exp t * 1000 <=? nowMs) eqn:He;
      [apply Z.leb_le in He | apply Z.leb_gt in He
      | apply Z.leb_le in He | apply Z.leb_gt in He];
      cbn [negb andb].
    3: { split; [discriminate |].
         intros [t' [[= <-] [_ [Hz' | Hlt]]]]; [contradiction | lia]. }
    all: destruct (String.eqb (claim_role (jwt_payload t)) "admin") eqn:Hrole;
      [apply String.eqb_eq in Hrole; rewrite Hrole; cbn
      | apply String.eqb_neq in Hrole;
        destruct (String.eqb (claim_role (jwt_payload t)) "");
        cbn [negb]; unfold redirectToDashboard;
        try (apply String.eqb_neq in Hrole as Hrole'; rewrite Hrole')].
    all: split;
      [ first [ discriminate
              | intros _; exists t; split; [reflexivity |];
                split; [assumption |]; first [left; assumption
                                             | right; assumption] ]
      | first [ intros _; exact Hhere
              | intros [t' [[= <-] [Hadm _]]]; contradiction ] ].
  - cbn. split; [discriminate | intros [t [[=] _]]].
Qed.
End Pages.

Section Tokens.
Import Frontend.

(** X18. Whatever the page, [script.js] forgets a stored token and goes
    to the login page when the payload of the token does not decode, has
    run out, or names no role. *)
Theorem unusable_token_is_dropped nowMs page b token :
  held_token b = Some token ->
  (decode token = None
   \/ exists t,
        decode token = Some t
        /\ ((jwt_exp t <> 0 /\ jwt_exp t * 1000 <= nowMs)
            \/ claim_role (jwt_payload t) = "")) ->
  handleAuthenticationRouting nowMs page b =
    {| stored_token := None;
       location_href := Some "login.html";
       alerts := alerts b |}.
Proof.
  intros Htok Hbad. unfold handleAuthenticationRouting. rewrite Htok.
  destruct Hbad as [-> | [t [-> Hbad]]]; [reflexivity |]. cbv zeta.
  destruct (negb (jwt_exp t =? 0) && (jwt_exp t * 1000 <=? nowMs)) eqn:Hexp;
    [reflexivity |].
  destruct Hbad as [[Hz He] | Hrole].
  - apply Z.eqb_neq in Hz. apply Z.leb_le in He.
    rewrite Hz, He in Hexp. discriminate Hexp.
  - rewrite Hrole. reflexivity.
Qed.

(** X19. [admin.js] keeps a visitor on the page only with a token whose
    payload decodes and says role [admin], whether or not it has run
    out; in every other case it forgets the token and goes to the login
    page. *)
Theorem admin_script_guard b :
  location_href b = None ->
  (location_href (checkAdminAuthentication b).1 = None
   <-> exists t,
         held_token b = Some (Compact t)
         /\ claim_role (jwt_payload t) = "admin")
  /\ (location_href (checkAdminAuthentication b).1 <> None ->
      stored_token (checkAdminAuthentication b).1 = None
      /\ location_href (checkAdminAuthentication b).1 = Some "login.html").
Proof.
  intros Hhere. unfold checkAdminAuthentication.
  destruct (held_token b) as [[text | t]|] eqn:Htok; cbn [decode fst].
  - split; [split; [discriminate | intros [t [[=] _]]] |].
    intros _. split; reflexivity.
  - cbv zeta.
    destruct (String.eqb (claim_role (jwt_payload t)) "admin") eqn:Hrole;
      cbn [negb fst].
    + apply String.eqb_eq in Hrole. split.
      * split; [intros _; exists t; split; [reflexivity | exact Hrole]
               | intros _; exact Hhere].
      * intros Hgo. contradiction.
    + apply String.eqb_neq in Hrole. split.
      * split; [discriminate |].
        intros [t' [[= <-] Hadm]]. contradiction.
      * intros _. split; reflexivity.
  - split; [split; [discriminate | intros [t [[=] _]]] |].
    intros _. split; reflexivity.
Qed.
End Tokens.

(** ** Registration and the accounts that exist *)

Section Growth.
Context `{Platform}.

(** X23. On a table whose keys lie below the AUTO_INCREMENT counter, a
    registration that succeeds adds one account and overwrites none: the
    key it takes was free, every account that existed is still there
    with the same row, and the table has one row more. *)
Theorem registration_adds_one_account now req w answer w' :
  ids_below w ->
  AuthRoutes.post_register now req w = (Return answer, w') ->
  status answer = 201%nat ->
  users w !! auto_increment w = None
  /\ size (users w') = S (size (users w))
  /\ forall k r, users w !! k = Some r -> users w' !! k = Some r.
Proof.
  intros Hbelow Hrun Hstatus.
  destruct (post_register_created now req w answer w' Hrun Hstatus)
    as [-> _].
  assert (Hfresh : users w !! auto_increment w = None).
  { destruct (users w !! auto_increment w) as [r|] eqn:Hrow; [| reflexivity].
    pose proof (Hbelow _ r Hrow). lia. }
  cbn [users]. split; [exact Hfresh |]. split.
  - apply map_size_insert_None. exact Hfresh.
  - intros k r Hrow. rewrite lookup_insert_ne; [exact Hrow |].
    intros <-. rewrite Hfresh in Hrow. discriminate Hrow.
Qed.
End Growth.

(** * The further properties at work *)

Section MoreScenarios.
Import Demo Fixtures Frontend.


Lemma seeded_ids_below : ids_below seeded.
Proof.
  intros k r Hrow.
  destruct (seeded_lookup k r Hrow) as [[-> ->] | [-> ->]]; reflexivity.
Qed.


Lemma ci_eq_sym a b : ci_eq a b = ci_eq b a.
Proof. apply String.eqb_sym. Qed.

Lemma fake_bcrypt_verifies password rounds salt :
  fake_compare password (fake_hash password rounds salt) = true.
Proof. unfold fake_compare, fake_hash. cbn. apply String.eqb_refl. Qed.

(** A number of six digits passes [isLength({ min: 6 })]; [bcrypt.hash]
    refuses it, and the registration is answered 500 with the world as
    it was. *)
Example register_with_a_number_as_password :
  AuthRoutes.register_checks dave = []
  /\ AuthRoutes.post_register 300 (anonymous dave) seeded
     = (Return (message_only 500 "Registration failed, please try again"),
        seeded).
Proof. split; reflexivity. Qed.

(** A username of sixty characters passes [notEmpty()]; the column takes
    fifty, and the registration is answered 500 with the table as it
    was. *)
Example register_with_a_long_username :
  AuthRoutes.register_checks erin = []
  /\ characters (text (body_username erin)) = 60%nat
  /\ exists w',
       AuthRoutes.post_register 300 (anonymous erin) seeded
       = (Return (message_only 500 "Registration failed, please try again"),
          w')
       /\ users w' = users seeded.
Proof.
  split; [reflexivity |]. split; [reflexivity |].
  eexists. split; [vm_compute; reflexivity | reflexivity].
Qed.

(** A letter with an accent takes two bytes and counts once: three of
    them are too short a password, six are enough. *)
Example accents_count_once :
  String.length "ééé" = 6%nat
  /\ isLength_min 6 "ééé" = false
  /\ isLength_min 6 "éééééé" = true.
Proof. repeat split; reflexivity. Qed.


Lemma reading_endpoints_witness :
  (serve draws Login 300 (anonymous (credentials "admin" "admin123"))
         seeded).2 = seeded.
Proof.
  apply (reading_endpoints_write_nothing draws Login 300
           (anonymous (credentials "admin" "admin123")) seeded
           (serve draws Login 300
                  (anonymous (credentials "admin" "admin123")) seeded).1);
    [left; reflexivity | apply surjective_pairing].
Defined.




Lemma update_duplicate_username_witness :
  exists w',
    UsersRoutes.update_handler 300 (by_admin 2 (rename "admin")) seeded
      = (Return (message_only 500 "Could not update user"), w')
    /\ users w' = users seeded
    /\ auto_increment w' = auto_increment seeded.
Proof.
  apply (update_duplicate_username_500 300 (by_admin 2 (rename "admin"))
           seeded admin_subject john_row 1 admin_row "admin");
    [exact ci_eq_refl | reflexivity | reflexivity | discriminate
    | reflexivity | reflexivity | reflexivity | discriminate | reflexivity].
Defined.

Lemma login_token_witness :
  exists token,
    body (match (AuthRoutes.post_login
                   300 (anonymous (credentials "ADMIN" "admin123"))
                   seeded).1
          with
          | Return answer => answer
          | Throw _ => message_only 500 ""
          end)
    = Some (JObj [("message", JPrim (PStr "Login successful"));
                  ("token", JPrim (PToken token));
                  ("user",
                   JObj [("id", JPrim (PNum 1));
                         ("username", JPrim (PStr "admin"));
                         ("email", JPrim (PStr "admin@example.com"));
                         ("role", JPrim (PStr "admin"))])])
    /\ claim_username (jwt_payload token) = "admin"
    /\ claim_role (jwt_payload token) = "admin"
    /\ jwt_exp token = 3900.
Proof.
  rewrite (login_issues_token_for_the_row
             300 (anonymous (credentials "ADMIN" "admin123")) seeded
             1 admin_row "admin123").
  - eexists. split; [reflexivity |]. repeat split.
  - reflexivity.
  - reflexivity.
  - intros k' r' Hrow Hm.
    destruct (seeded_lookup k' r' Hrow) as [[-> ->] | [-> ->]];
      [reflexivity | discriminate Hm].
  - reflexivity.
  - reflexivity.
  - reflexivity.
Defined.

Lemma whoami_witness :
  exists user,
    AuthRoutes.me_handler 300 (by_admin 0 no_body) seeded
      = (Return
           {| status := 200;
              body :=
                Some (JObj
                  [("message",
                    JPrim (PStr "Profile retrieved successfully"));
                   ("user", user)]) |}, seeded)
    /\ has_key "email" user = true
    /\ has_key "password" user = false.
Proof.
  rewrite (whoami_reads_the_table 300 (by_admin 0 no_body) seeded
             admin_subject eq_refl).
  eexists. split; [reflexivity |]. split; reflexivity.
Defined.

Lemma seeding_skips_witness :
  DbInit.createSampleUsers clock seeded = (Return true, seeded).
Proof.
  apply seeding_skips_a_populated_table.
  intros Hempty.
  assert (Hrow : users seeded !! 1 = Some admin_row) by reflexivity.
  rewrite Hempty, lookup_empty in Hrow. discriminate Hrow.
Defined.


Lemma admin_page_witness :
  location_href
    (onPageLoad 300000 "/admin-dashboard.html"
                (visitor (Some (Compact admin_token)))) = None
  /\ location_href
       (onPageLoad 300000 "/admin-dashboard.html"
                   (visitor (Some (Compact john_token))))
     = Some "dashboard.html".
Proof.
  split; [| reflexivity].
  apply (admin_page_needs_admin_payload 300000 "/admin-dashboard.html"
           (visitor (Some (Compact admin_token))));
    [reflexivity | reflexivity | reflexivity | reflexivity |].
  exists admin_token. split; [reflexivity |]. split; [reflexivity |].
  right. reflexivity.
Defined.

Lemma unusable_token_witness :
  handleAuthenticationRouting
    300000 "user-dashboard" (visitor (Some (Malformed "not-a-token")))
  = {| stored_token := None; location_href := Some "login.html";
       alerts := [] |}.
Proof.
  apply (unusable_token_is_dropped
           300000 "user-dashboard"
           (visitor (Some (Malformed "not-a-token")))
           (Malformed "not-a-token")); [reflexivity | left; reflexivity].
Defined.

Lemma admin_script_witness :
  location_href
    (checkAdminAuthentication (visitor (Some (Compact admin_token)))).1
  = None.
Proof.
  apply (admin_script_guard (visitor (Some (Compact admin_token))) eq_refl).
  exists admin_token. split; reflexivity.
Defined.


Lemma register_twice_witness :
  exists message,
    AuthRoutes.post_register
      400 (anonymous alice)
      (AuthRoutes.post_register 300 (anonymous alice) seeded).2
    = (Return (message_only 400 message),
       (AuthRoutes.post_register 300 (anonymous alice) seeded).2).
Proof.
  apply (register_twice 300 400 (anonymous alice) (anonymous alice) seeded
           (res_json 201
              (VObj [("message", VStr "Registration successful");
                     ("token",
                      VPrim (PToken
                               (jwt_sign 300
                                  {| claim_id := 3;
                                     claim_username := "alice";
                                     claim_role := "user" |}
                                  "server-secret" 3600)));
                     ("user",
                      VObj [("id", VNum 3); ("username", VStr "alice");
                            ("email", VStr "alice@x.com");
                            ("role", VStr "user")])])));
    [exact ci_eq_refl | vm_compute; reflexivity | reflexivity
    | reflexivity | reflexivity].
Defined.

Lemma register_then_login_witness :
  exists answer,
    AuthRoutes.post_login
      400 (anonymous alice)
      (AuthRoutes.post_register 300 (anonymous alice) seeded).2
    = (Return answer,
       (AuthRoutes.post_register 300 (anonymous alice) seeded).2)
    /\ status answer = 200%nat.
Proof.
  apply (register_then_login 300 400 (anonymous alice) seeded
           (res_json 201
              (VObj [("message", VStr "Registration successful");
                     ("token",
                      VPrim (PToken
                               (jwt_sign 300
                                  {| claim_id := 3;
                                     claim_username := "alice";
                                     claim_role := "user" |}
                                  "server-secret" 3600)));
                     ("user",
                      VObj [("id", VNum 3); ("username", VStr "alice");
                            ("email", VStr "alice@x.com");
                            ("role", VStr "user")])])));
    [exact ci_eq_refl | exact fake_bcrypt_verifies
    | vm_compute; reflexivity | reflexivity].
Defined.
Lemma registration_adds_one_account_witness :
  size (users (AuthRoutes.post_register 300 (anonymous alice) seeded).2)
  = 3%nat
  /\ users (AuthRoutes.post_register 300 (anonymous alice) seeded).2 !! 1
     = Some admin_row.
Proof.
  destruct (registration_adds_one_account
              300 (anonymous alice) seeded
              (res_json 201
                 (VObj [("message", VStr "Registration successful");
                        ("token",
                         VPrim (PToken
                                  (jwt_sign 300
                                     {| claim_id := 3;
                                        claim_username := "alice";
                                        claim_role := "user" |}
                                     "server-secret" 3600)));
                        ("user",
                         VObj [("id", VNum 3); ("username", VStr "alice");
                               ("email", VStr "alice@x.com");
                               ("role", VStr "user")])]))
              (AuthRoutes.post_register 300 (anonymous alice) seeded).2
              seeded_ids_below)
    as [_ [Hsize Hkept]]; [vm_compute; reflexivity | reflexivity |].
  split; [rewrite Hsize; reflexivity | apply Hkept; reflexivity].
Defined.
End MoreScenarios.
